(** * pympler.process: process memory metrics, platform selection

    A shallow embedding of [pympler/process.py] (the memory prober part:
    the class [_ProcessMemoryInfo], its four platform subclasses, the
    module-level selection of [ProcessMemoryInfo] and [is_available]),
    followed by the properties of the specification stated over it.

    Conventions.
    - Python integers are unbounded: they are [Z].
    - Text is [string].  The interpreter's built-ins the module calls
      ([split], [strip], [int], indexing, [dict.get]) are modelled in
      [Module Py] with the semantics of CPython 3 on ASCII text.
    - An [update] method mutates [self] and either returns a boolean or
      raises: it is a function [Object -> Object * result bool]; the object
      component is the state of [self] when the method returns or raises.
    - What the operating system answers is data: a [Host] (what is fixed
      for the interpreter: the pid, which optional modules import) and an
      [OS] (what one [update] call observes). *)

From Stdlib Require Import ZArith List String Ascii Bool Lia.
From Stdlib Require Import DecimalString.
Import ListNotations.

Local Open Scope string_scope.
Local Open Scope Z_scope.

(* ------------------------------------------------------------------ *)
(** ** Python built-ins used by the module                             *)
(* ------------------------------------------------------------------ *)

Module Py.

(** Exceptions that the modelled code can raise.  [ImportError] is only
    raised by the [import] statements, whose outcome is a field of
    [Host]; it is caught where it is raised and never reaches here. *)
Inductive exn : Type :=
| ValueError
| IndexError
| NameError
| AttributeError.

Inductive result (A : Type) : Type :=
| Ret (a : A)
| Raise (e : exn).
Arguments Ret {A} a.
Arguments Raise {A} e.

(** Whitespace of [bytes.split] / [bytes.strip]: TAB, LF, VT, FF, CR and
    the space. *)
Definition isspace_bytes (c : ascii) : bool :=
  let n := nat_of_ascii c in
  ((9 <=? n)%nat && (n <=? 13)%nat) || (n =? 32)%nat.

(** Whitespace of [str.split] / [str.strip] in the ASCII range: the
    above and the separators FS, GS, RS, US. *)
Definition isspace_str (c : ascii) : bool :=
  let n := nat_of_ascii c in
  isspace_bytes c || ((28 <=? n)%nat && (n <=? 31)%nat).

Fixpoint rev_string (acc s : string) : string :=
  match s with
  | EmptyString => acc
  | String c s' => rev_string (String c acc) s'
  end.

Definition flush (cur : string) (out : list string) : list string :=
  match cur with
  | EmptyString => out
  | _ => rev_string EmptyString cur :: out
  end.

(** [cur] is the token being read, reversed; [out] the tokens read so
    far, last first. *)
Fixpoint split_ws (sp : ascii -> bool) (cur : string) (out : list string)
         (s : string) : list string :=
  match s with
  | EmptyString => rev (flush cur out)
  | String c s' =>
      if sp c then split_ws sp EmptyString (flush cur out) s'
      else split_ws sp (String c cur) out s'
  end.

(** [s.split()]: the maximal runs of non-whitespace characters. *)
Definition split (sp : ascii -> bool) (s : string) : list string :=
  split_ws sp EmptyString [] s.

Fixpoint split_sep (sep : ascii) (cur : string) (s : string) : list string :=
  match s with
  | EmptyString => [rev_string EmptyString cur]
  | String c s' =>
      if Ascii.eqb c sep then rev_string EmptyString cur :: split_sep sep EmptyString s'
      else split_sep sep (String c cur) s'
  end.

(** [s.split(sep)] for a one-character separator: one more piece than
    there are separators, empty pieces kept. *)
Definition split_on (sep : ascii) (s : string) : list string :=
  split_sep sep EmptyString s.

Fixpoint lstrip (sp : ascii -> bool) (s : string) : string :=
  match s with
  | EmptyString => EmptyString
  | String c s' => if sp c then lstrip sp s' else s
  end.

(** [s.strip()]. *)
Definition strip (sp : ascii -> bool) (s : string) : string :=
  rev_string EmptyString
    (lstrip sp (rev_string EmptyString (lstrip sp s))).

Definition digit_of (c : ascii) : option Z :=
  let n := nat_of_ascii c in
  if ((48 <=? n)%nat && (n <=? 57)%nat) then Some (Z.of_nat n - 48) else None.

(** The digit part of a decimal literal: digits, with single underscores
    allowed between two digits.  [prev] tells whether the previous
    character was a digit. *)
Fixpoint digits (acc : Z) (prev : bool) (s : string) : option Z :=
  match s with
  | EmptyString => if prev then Some acc else None
  | String c s' =>
      match digit_of c with
      | Some d => digits (10 * acc + d) true s'
      | None =>
          if Ascii.eqb c "_" then
            if prev then digits acc false s' else None
          else None
      end
  end.

(** [int(s)] in base ten: surrounding whitespace is dropped, then an
    optional sign, then the digit part.  [None] is [ValueError].  (The
    interpreter's configurable cap on the number of digits is not
    modelled.) *)
Definition int (sp : ascii -> bool) (s : string) : option Z :=
  match strip sp s with
  | String "-" r => option_map Z.opp (digits 0 false r)
  | String "+" r => digits 0 false r
  | r => digits 0 false r
  end.

(** [l[i]] with Python's negative indices; [None] is [IndexError]. *)
Definition getitem {A : Type} (l : list A) (i : Z) : option A :=
  let n := Z.of_nat (List.length l) in
  let j := if i <? 0 then i + n else i in
  if (j <? 0) || (n <=? j) then None else nth_error l (Z.to_nat j).

(** [d.get(k)] on a dictionary with string keys, given as its items. *)
Fixpoint dict_get {V : Type} (d : list (string * V)) (k : string) : option V :=
  match d with
  | [] => None
  | (k', v) :: d' => if String.eqb k k' then Some v else dict_get d' k
  end.

(** Truth value of [d.get(k)] when the values are strings: [None] and
    the empty string are false. *)
Definition truthy (o : option string) : bool :=
  match o with
  | Some (String _ _) => true
  | _ => false
  end.

(** ['%s' % n] for an integer. *)
Definition str_of_int (n : Z) : string :=
  NilEmpty.string_of_int (Z.to_int n).

End Py.

Import Py.

Definition TAB : string := String (ascii_of_nat 9) EmptyString.
Definition LF : string := String (ascii_of_nat 10) EmptyString.

(* ------------------------------------------------------------------ *)
(** ** The world outside the interpreter                               *)
(* ------------------------------------------------------------------ *)

(** The fields of [resource.getrusage(RUSAGE_SELF)] that the module reads. *)
Record rusage : Type := mk_rusage {
  ru_maxrss : Z;
  ru_ixrss : Z;
  ru_idrss : Z;
  ru_isrss : Z;
  ru_majflt : Z
}.

(** The entries of the dictionary returned by
    [win32process.GetProcessMemoryInfo] that the module reads. *)
Record memory_info : Type := mk_memory_info {
  PagefileUsage : Z;
  WorkingSetSize : Z;
  PageFaultCount : Z
}.

(** What is fixed while the interpreter runs.
    - [getpid]: the value of [os.getpid()];
    - [resource]: [None] when [import resource] raises [ImportError],
      otherwise the value of [resource.getpagesize()];
    - [win32]: whether [win32process] and [win32api] import. *)
Record Host : Type := mk_Host {
  getpid : Z;
  resource : option Z;
  win32 : bool
}.

(** What one call of [update] observes.
    - [proc_self_stat]: [None] when [open('/proc/self/stat')] raises
      [IOError], otherwise what [read()] returns;
    - [proc_self_status]: [None] when [open('/proc/self/status')] raises
      [IOError], otherwise what [readlines()] returns;
    - [Popen argv]: [None] when [Popen] raises [OSError], otherwise what
      [communicate()] captured on standard output, and [returncode];
    - [getrusage]: the answer of [getrusage(RUSAGE_SELF)];
    - [GetProcessMemoryInfo]: the answer of
      [GetProcessMemoryInfo(GetCurrentProcess())]. *)
Record OS : Type := mk_OS {
  proc_self_stat : option string;
  proc_self_status : option (list string);
  Popen : list string -> option (string * Z);
  getrusage : rusage;
  GetProcessMemoryInfo : memory_info
}.

(** [_getpagesize()]: [resource.getpagesize] when it imports, else the
    constant function 4096. *)
Definition _getpagesize (h : Host) : Z :=
  match resource h with
  | Some n => n
  | None => 4096
  end.

(* ------------------------------------------------------------------ *)
(** ** Instances of [_ProcessMemoryInfo]                               *)
(* ------------------------------------------------------------------ *)

(** The attributes of an instance.  [available] is [None] until
    [__init__] has assigned it, which is after the first [update]. *)
Record Object : Type := mk_Object {
  pid : Z;
  rss : Z;
  vsz : Z;
  pagefaults : Z;
  os_specific : list (string * string);
  data_segment : Z;
  code_segment : Z;
  shared_segment : Z;
  stack_segment : Z;
  available : option bool
}.

Definition set_rss (v : Z) (o : Object) : Object :=
  mk_Object (pid o) v (vsz o) (pagefaults o) (os_specific o) (data_segment o)
            (code_segment o) (shared_segment o) (stack_segment o) (available o).

Definition set_vsz (v : Z) (o : Object) : Object :=
  mk_Object (pid o) (rss o) v (pagefaults o) (os_specific o) (data_segment o)
            (code_segment o) (shared_segment o) (stack_segment o) (available o).

Definition set_pagefaults (v : Z) (o : Object) : Object :=
  mk_Object (pid o) (rss o) (vsz o) v (os_specific o) (data_segment o)
            (code_segment o) (shared_segment o) (stack_segment o) (available o).

Definition append_os_specific (e : string * string) (o : Object) : Object :=
  mk_Object (pid o) (rss o) (vsz o) (pagefaults o) (os_specific o ++ [e])
            (data_segment o) (code_segment o) (shared_segment o)
            (stack_segment o) (available o).

Definition set_data_segment (v : Z) (o : Object) : Object :=
  mk_Object (pid o) (rss o) (vsz o) (pagefaults o) (os_specific o) v
            (code_segment o) (shared_segment o) (stack_segment o) (available o).

Definition set_code_segment (v : Z) (o : Object) : Object :=
  mk_Object (pid o) (rss o) (vsz o) (pagefaults o) (os_specific o)
            (data_segment o) v (shared_segment o) (stack_segment o) (available o).

Definition set_shared_segment (v : Z) (o : Object) : Object :=
  mk_Object (pid o) (rss o) (vsz o) (pagefaults o) (os_specific o)
            (data_segment o) (code_segment o) v (stack_segment o) (available o).

Definition set_stack_segment (v : Z) (o : Object) : Object :=
  mk_Object (pid o) (rss o) (vsz o) (pagefaults o) (os_specific o)
            (data_segment o) (code_segment o) (shared_segment o) v (available o).

Definition set_available (b : bool) (o : Object) : Object :=
  mk_Object (pid o) (rss o) (vsz o) (pagefaults o) (os_specific o)
            (data_segment o) (code_segment o) (shared_segment o)
            (stack_segment o) (Some b).

(** The seven numeric metrics are all zero. *)
Definition numeric_zero (o : Object) : Prop :=
  vsz o = 0 /\ rss o = 0 /\ pagefaults o = 0 /\ data_segment o = 0 /\
  code_segment o = 0 /\ shared_segment o = 0 /\ stack_segment o = 0.

(* ------------------------------------------------------------------ *)
(** ** Methods: statements that mutate [self] and may raise            *)
(* ------------------------------------------------------------------ *)

Definition M (A : Type) : Type := Object -> Object * result A.

Definition ret {A : Type} (a : A) : M A := fun self => (self, Ret a).

Definition raise {A : Type} (e : exn) : M A := fun self => (self, Raise e).

Definition bind {A B : Type} (m : M A) (k : A -> M B) : M B :=
  fun self =>
    match m self with
    | (self', Ret a) => k a self'
    | (self', Raise e) => (self', Raise e)
    end.

Definition get : M Object := fun self => (self, Ret self).

(** An attribute assignment [self.x = v]. *)
Definition assign (f : Object -> Object) : M unit := fun self => (f self, Ret tt).

(** A built-in that answers [None] raises [e]. *)
Definition orraise {A : Type} (e : exn) (o : option A) : M A :=
  match o with
  | Some a => ret a
  | None => raise e
  end.

Declare Scope py_scope.
Delimit Scope py_scope with py.
Notation "x <- m ;; k" := (bind m (fun x => k))
  (at level 61, m at next level, right associativity) : py_scope.
Notation "m ;; k" := (bind m (fun _ => k))
  (at level 61, right associativity) : py_scope.
Local Open Scope py_scope.

(** [for x in l: body(x)]. *)
Fixpoint for_each {A : Type} (l : list A) (body : A -> M unit) : M unit :=
  match l with
  | [] => ret tt
  | x :: l' => body x ;; for_each l' body
  end.

(* ------------------------------------------------------------------ *)
(** ** The classes and their [update] methods                          *)
(* ------------------------------------------------------------------ *)

(** The classes of the module; the module variable [ProcessMemoryInfo]
    is bound to one of them. *)
Inductive Class : Type :=
| _ProcessMemoryInfo
| _ProcessMemoryInfoPS
| _ProcessMemoryInfoProc
| _ProcessMemoryInfoResource
| _ProcessMemoryInfoWin32.

(** [_ProcessMemoryInfo.update]: [return False]. *)
Definition update_base : M bool := ret false.

(** [_ProcessMemoryInfoPS.update].  The standard output of the child is a
    byte string. *)
Definition update_PS (os : OS) : M bool :=
  self <- get ;;
  match Popen os ["/bin/ps"; "-p" ++ str_of_int (pid self); "-o"; "rss,vsz"] with
  | None => ret false
  | Some (out, returncode) =>
      let s := split isspace_bytes out in
      if (returncode =? 0) && (2 <=? Z.of_nat (List.length s)) then
        t <- orraise IndexError (getitem s (-1)) ;;
        v <- orraise ValueError (int isspace_bytes t) ;;
        assign (set_vsz (v * 1024)) ;;
        t <- orraise IndexError (getitem s (-2)) ;;
        r <- orraise ValueError (int isspace_bytes t) ;;
        assign (set_rss (r * 1024)) ;;
        ret true
      else ret false
  end.

(** [_ProcessMemoryInfoProc.key_map]. *)
Definition key_map : list (string * string) :=
  [ ("VmPeak", "Peak virtual memory size");
    ("VmSize", "Virtual memory size");
    ("VmLck", "Locked memory size");
    ("VmHWM", "Peak resident set size");
    ("VmRSS", "Resident set size");
    ("VmStk", "Size of stack segment");
    ("VmData", "Size of data segment");
    ("VmExe", "Size of code segment");
    ("VmLib", "Shared library code size");
    ("VmPTE", "Page table entries size") ].

(** [size_in_bytes = lambda x: int(x.split()[0]) * 1024]. *)
Definition size_in_bytes (x : string) : M Z :=
  t <- orraise IndexError (getitem (split isspace_str x) 0) ;;
  n <- orraise ValueError (int isspace_str t) ;;
  ret (n * 1024).

(** The body of [for entry in status.readlines()].  Unpacking
    [key, value = entry.split(':')] raises [ValueError] unless there are
    exactly two pieces. *)
Definition status_entry (entry : string) : M unit :=
  match split_on ":" entry with
  | [key; value] =>
      (if String.eqb key "VmData" then
         n <- size_in_bytes value ;; assign (set_data_segment n)
       else if String.eqb key "VmExe" then
         n <- size_in_bytes value ;; assign (set_code_segment n)
       else if String.eqb key "VmLib" then
         n <- size_in_bytes value ;; assign (set_shared_segment n)
       else if String.eqb key "VmStk" then
         n <- size_in_bytes value ;; assign (set_stack_segment n)
       else ret tt) ;;
      let key' := dict_get key_map key in
      if truthy key' then
        match key' with
        | Some label => assign (append_os_specific (label, strip isspace_str value))
        | None => ret tt
        end
      else ret tt
  | _ => raise ValueError
  end.

(** [_ProcessMemoryInfoProc.update]; [pagesize] is the class attribute. *)
Definition update_Proc (pagesize : Z) (os : OS) : M bool :=
  match proc_self_stat os, proc_self_status os with
  | Some stat, Some status =>
      let stats := split isspace_str stat in
      t <- orraise IndexError (getitem stats 22) ;;
      v <- orraise ValueError (int isspace_str t) ;;
      assign (set_vsz v) ;;
      t <- orraise IndexError (getitem stats 23) ;;
      r <- orraise ValueError (int isspace_str t) ;;
      assign (set_rss (r * pagesize)) ;;
      t <- orraise IndexError (getitem stats 11) ;;
      p <- orraise ValueError (int isspace_str t) ;;
      assign (set_pagefaults p) ;;
      for_each status status_entry ;;
      ret true
  | _, _ => ret false
  end.

(** [_ProcessMemoryInfoResource.update]. *)
Definition update_Resource (os : OS) : M bool :=
  let usage := getrusage os in
  assign (set_rss (ru_maxrss usage * 1024)) ;;
  assign (set_data_segment (ru_idrss usage * 1024)) ;;
  assign (set_shared_segment (ru_ixrss usage * 1024)) ;;
  assign (set_stack_segment (ru_isrss usage * 1024)) ;;
  self <- get ;;
  assign (set_vsz (data_segment self + shared_segment self + stack_segment self)) ;;
  assign (set_pagefaults (ru_majflt usage)) ;;
  self <- get ;;
  ret (negb (rss self =? 0)).

(** [_ProcessMemoryInfoWin32.update]. *)
Definition update_Win32 (os : OS) : M bool :=
  let memory_info := GetProcessMemoryInfo os in
  assign (set_vsz (PagefileUsage memory_info)) ;;
  assign (set_rss (WorkingSetSize memory_info)) ;;
  assign (set_pagefaults (PageFaultCount memory_info)) ;;
  ret true.

(** Method lookup: [self.update()] for an instance of class [c].

    The class statements of [_ProcessMemoryInfoResource] and
    [_ProcessMemoryInfoWin32] are executed only on a host where the
    modules they use import.  On another host the call has the outcome of
    running the method body there: its first statement reads a global
    name that was never bound. *)
Definition update (c : Class) (h : Host) (os : OS) : M bool :=
  match c with
  | _ProcessMemoryInfo => update_base
  | _ProcessMemoryInfoPS => update_PS os
  | _ProcessMemoryInfoProc => update_Proc (_getpagesize h) os
  | _ProcessMemoryInfoResource =>
      match resource h with
      | Some _ => update_Resource os
      | None => raise NameError
      end
  | _ProcessMemoryInfoWin32 =>
      if win32 h then update_Win32 os else raise NameError
  end.

(** The attributes as [__init__] sets them before it calls [update]. *)
Definition fresh (h : Host) : Object :=
  {| pid := getpid h; rss := 0; vsz := 0; pagefaults := 0; os_specific := [];
     data_segment := 0; code_segment := 0; shared_segment := 0;
     stack_segment := 0; available := None |}.

(** [c()]: [__init__] runs [update] once and stores its answer in
    [available]; an exception of [update] leaves the constructor. *)
Definition __init__ (c : Class) (h : Host) (os : OS) : result Object :=
  match update c h os (fresh h) with
  | (self, Ret b) => Ret (set_available b self)
  | (_, Raise e) => Raise e
  end.

(** [c().update()]: the instance is built under [os1], then updated once
    more under [os2]. *)
Definition probe (c : Class) (h : Host) (os1 os2 : OS) : result bool :=
  match __init__ c h os1 with
  | Ret self => snd (update c h os2 self)
  | Raise e => Raise e
  end.

(** Reading [self.available]: the attribute exists once [__init__] has
    assigned it. *)
Definition get_available (self : Object) : result bool :=
  match available self with
  | Some b => Ret b
  | None => Raise AttributeError
  end.

(** [c().available]. *)
Definition snapshot_available (c : Class) (h : Host) (os : OS) : result bool :=
  match __init__ c h os with
  | Ret self => get_available self
  | Raise e => Raise e
  end.

(* ------------------------------------------------------------------ *)
(** ** The module: selection at import, [is_available]                 *)
(* ------------------------------------------------------------------ *)

(** The module's global state: the binding of [ProcessMemoryInfo]. *)
Record Globals : Type := mk_Globals {
  ProcessMemoryInfo : Class
}.

(** Execution of the module body.  [os n] is what the [n]-th call of
    [update] observes, counted from 0; each completed probe makes two.

    [import resource] succeeding, the three probes run in turn and an
    exception of a probe (never an [ImportError]) ends the import.
    [import resource] failing, the handler binds the Win32 class when its
    modules import, without calling [update]. *)
Definition import_module (h : Host) (os : nat -> OS) : result Globals :=
  let g0 := mk_Globals _ProcessMemoryInfo in
  match resource h with
  | Some _ =>
      match probe _ProcessMemoryInfoProc h (os 0%nat) (os 1%nat) with
      | Raise e => Raise e
      | Ret true => Ret (mk_Globals _ProcessMemoryInfoProc)
      | Ret false =>
          match probe _ProcessMemoryInfoPS h (os 2%nat) (os 3%nat) with
          | Raise e => Raise e
          | Ret true => Ret (mk_Globals _ProcessMemoryInfoPS)
          | Ret false =>
              match probe _ProcessMemoryInfoResource h (os 4%nat) (os 5%nat) with
              | Raise e => Raise e
              | Ret true => Ret (mk_Globals _ProcessMemoryInfoResource)
              | Ret false => Ret g0
              end
          end
      end
  | None =>
      if win32 h then Ret (mk_Globals _ProcessMemoryInfoWin32) else Ret g0
  end.

(** [is_available()]: [return ProcessMemoryInfo().update()].  The
    globals are threaded through to show what the call leaves of them. *)
Definition is_available (g : Globals) (h : Host) (os1 os2 : OS)
  : Globals * result bool :=
  (g, probe (ProcessMemoryInfo g) h os1 os2).

(* ------------------------------------------------------------------ *)
(** ** Properties of methods                                           *)
(* ------------------------------------------------------------------ *)

(** The statement [m] leaves the observation [obs] of [self] alone,
    whether it returns or raises. *)
Definition preserves {X : Type} (obs : Object -> X) {A : Type} (m : M A) : Prop :=
  forall self, obs (fst (m self)) = obs self.

(** The statement [m] cannot return [False]. *)
Definition never_false (m : M bool) : Prop :=
  forall self self', m self <> (self', Ret false).

(** The outcome of [m] does not depend on [self]. *)
Definition blind {A : Type} (m : M A) : Prop :=
  forall s1 s2, snd (m s1) = snd (m s2).

(** The four segment sizes of an instance. *)
Definition segments (o : Object) : Z * Z * Z * Z :=
  (data_segment o, code_segment o, shared_segment o, stack_segment o).

(* ------------------------------------------------------------------ *)
(** ** Sample hosts and answers of the operating system                *)
(* ------------------------------------------------------------------ *)

(** A host where [resource] imports (page size 4096) and pywin32 does
    not; one where only pywin32 imports; one where neither does. *)
Definition host_posix : Host := mk_Host 4711 (Some 4096) false.
Definition host_windows : Host := mk_Host 4711 None true.
Definition host_bare : Host := mk_Host 4711 None false.

(** Nothing is there: no [/proc], no [/bin/ps], accounting all zero. *)
Definition os_nothing : OS :=
  mk_OS None None (fun _ => None) (mk_rusage 0 0 0 0 0) (mk_memory_info 0 0 0).

(** Accounting that reports no resident size but one unit of unshared
    data. *)
Definition os_rusage_idrss_only : OS :=
  mk_OS None None (fun _ => None) (mk_rusage 0 0 1 0 0) (mk_memory_info 0 0 0).

(** The process-information call answers: page file 3000, working set
    2000, 7 page faults. *)
Definition os_win32 : OS :=
  mk_OS None None (fun _ => None) (mk_rusage 0 0 0 0 0) (mk_memory_info 3000 2000 7).

(** Accounting that reports a maximum resident size of 500. *)
Definition os_rusage_500 : OS :=
  mk_OS None None (fun _ => None) (mk_rusage 500 0 0 0 0) (mk_memory_info 0 0 0).

(** The argument vector [update] of the ps class passes to [Popen]. *)
Definition ps_argv (p : Z) : list string :=
  ["/bin/ps"; "-p" ++ str_of_int p; "-o"; "rss,vsz"].

Fixpoint argv_eqb (a b : list string) : bool :=
  match a, b with
  | [], [] => true
  | x :: a', y :: b' => String.eqb x y && argv_eqb a' b'
  | _, _ => false
  end.

(** A host where [/bin/ps -p4711 -o rss,vsz] prints [out] and exits with
    [returncode]; any other command fails to launch.  No [/proc]. *)
Definition os_ps (out : string) (returncode : Z) : OS :=
  mk_OS None None
        (fun argv => if argv_eqb argv (ps_argv 4711) then Some (out, returncode)
                     else None)
        (mk_rusage 0 0 0 0 0) (mk_memory_info 0 0 0).

(* ------------------------------------------------------------------ *)
(** ** Well-formed status lines                                        *)
(* ------------------------------------------------------------------ *)

(** The keys whose value [status_entry] converts with [size_in_bytes]. *)
Definition segment_key (key : string) : bool :=
  String.eqb key "VmData" || String.eqb key "VmExe" ||
  String.eqb key "VmLib" || String.eqb key "VmStk".

(** The assignment [status_entry] makes for a key, given the converted
    value. *)
Definition store_segment (key : string) (n : Z) (o : Object) : Object :=
  if String.eqb key "VmData" then set_data_segment n o
  else if String.eqb key "VmExe" then set_code_segment n o
  else if String.eqb key "VmLib" then set_shared_segment n o
  else if String.eqb key "VmStk" then set_stack_segment n o
  else o.

(** What a line with this key and value adds to [os_specific]. *)
Definition entry_labels (key value : string) : list (string * string) :=
  match dict_get key_map key with
  | Some label => if truthy (Some label) then [(label, strip isspace_str value)] else []
  | None => []
  end.

(** What a whole line adds to [os_specific] when it is processed. *)
Definition line_labels (entry : string) : list (string * string) :=
  match split_on ":" entry with
  | [key; value] => entry_labels key value
  | _ => []
  end.

(** [x.split()[0]] exists and reads as an integer. *)
Definition value_ok (value : string) : bool :=
  match getitem (split isspace_str value) 0 with
  | Some t => match int isspace_str t with Some _ => true | None => false end
  | None => false
  end.

(** A line that [status_entry] processes without raising: one key and
    one value around a single colon, the value numeric where the key is
    one of the four segment keys. *)
Definition entry_ok (entry : string) : bool :=
  match split_on ":" entry with
  | [key; value] => if segment_key key then value_ok value else true
  | _ => false
  end.

(** The line has exactly one colon and this key before it. *)
Definition has_key (k : string) (entry : string) : bool :=
  match split_on ":" entry with
  | [key; _] => String.eqb key k
  | _ => false
  end.

(** A stat line as the kernel prints it (52 fields): major faults 3 in
    field 12, virtual size 12345678 in field 23, 2000 resident pages in
    field 24. *)
Definition sample_stat : string :=
  "4711 (python) S 1 4711 4711 0 -1 4194304 1000 0 3 0 10 5 0 0 20 0 1 0 100 12345678 2000 18446744073709551615 1 1 0 0 0 0 0 0 0 0 0 0 17 0 0 0 0 0 0 0 0 0 0 0 0 0 0"
  ++ LF.

Definition sample_status : list string :=
  [ "Name:" ++ TAB ++ "python" ++ LF;
    "VmRSS:" ++ TAB ++ "    8000 kB" ++ LF;
    "VmData:" ++ TAB ++ "    1234 kB" ++ LF;
    "VmStk:" ++ TAB ++ "     132 kB" ++ LF;
    "Threads:" ++ TAB ++ "1" ++ LF ].

(** A host with a readable [/proc]; every command fails to launch. *)
Definition os_proc (stat : string) (status : list string) : OS :=
  mk_OS (Some stat) (Some status) (fun _ => None)
        (mk_rusage 0 0 0 0 0) (mk_memory_info 0 0 0).

(** A host with a readable, well-formed [/proc] at every moment. *)
Definition os_always_proc : nat -> OS :=
  fun _ => os_proc sample_stat sample_status.

(** A host where [ps] answers at every moment and there is no [/proc]. *)
Definition os_always_ps : nat -> OS :=
  fun _ => os_ps "  1024  2048" 0.

(* ------------------------------------------------------------------ *)
(** ** Further vocabulary for the memory prober                        *)
(* ------------------------------------------------------------------ *)

(** The seven numeric metrics of an instance. *)
Definition numeric (o : Object) : Z * Z * Z * Z * Z * Z * Z :=
  (vsz o, rss o, pagefaults o, data_segment o, code_segment o,
   shared_segment o, stack_segment o).

(** The statement [m] raises nothing but exceptions in [P]. *)
Definition raises_only {A : Type} (P : exn -> Prop) (m : M A) : Prop :=
  forall self self' e, m self = (self', Raise e) -> P e.

(** The four segment attributes and the status key that feeds each. *)
Inductive Segment : Type :=
| Data
| Code
| Shared
| Stack.

Definition seg_key (g : Segment) : string :=
  match g with
  | Data => "VmData"
  | Code => "VmExe"
  | Shared => "VmLib"
  | Stack => "VmStk"
  end.

Definition seg_get (g : Segment) (o : Object) : Z :=
  match g with
  | Data => data_segment o
  | Code => code_segment o
  | Shared => shared_segment o
  | Stack => stack_segment o
  end.

(** The line has exactly one colon and its key is not in [key_map]. *)
Definition unknown_key (entry : string) : bool :=
  match split_on ":" entry with
  | [key; _] => match dict_get key_map key with Some _ => false | None => true end
  | _ => false
  end.

(** The module variable is still bound to the base class. *)
Definition is_base (c : Class) : bool :=
  match c with
  | _ProcessMemoryInfo => true
  | _ => false
  end.

(* ------------------------------------------------------------------ *)
(** ** The thread census                                               *)
(* ------------------------------------------------------------------ *)

(** A thread object as [ThreadInfo.__init__] sees it.  The object is a
    duck: each attribute or method that the constructor reads may be
    missing, and reading a missing one raises [AttributeError].
    - [thread_id]: the identity of the object, what [is] compares;
    - [attr_ident]: the attribute [ident]; its value is an integer or
      Python's [None] (a thread that was not started), here [option Z];
    - [attr_name], [meth_getName]: the attribute [name], the answer of
      the method [getName()];
    - [attr_daemon], [meth_isDaemon]: the attribute [daemon], the answer
      of the method [isDaemon()]. *)
Record Thread : Type := mk_Thread {
  thread_id : nat;
  attr_ident : option (option Z);
  attr_name : option string;
  meth_getName : option string;
  attr_daemon : option bool;
  meth_isDaemon : option bool
}.

(** The state of the [threading] module that the census reads:
    [threading._active.items()], in the order the dictionary yields them,
    and [threading.enumerate()]. *)
Record Threading : Type := mk_Threading {
  _active : list (Z * Thread);
  enumerate : list Thread
}.

(** The attributes of a [ThreadInfo] instance. *)
Record ThreadInfo : Type := mk_ThreadInfo {
  ident : option Z;
  name : string;
  daemon : bool
}.

(** [athread is thread]. *)
Definition is_ (a b : Thread) : bool := Nat.eqb (thread_id a) (thread_id b).

(** The loop [for tid, athread in threading._active.items()] of
    [ThreadInfo.__init__]: [cur] is [self.ident] when the loop is
    entered; the first entry whose object is [thread] assigns its key and
    breaks. *)
Fixpoint scan_active (items : list (Z * Thread)) (thread : Thread)
         (cur : option Z) : option Z :=
  match items with
  | [] => cur
  | (tid, athread) :: items' =>
      if is_ athread thread then Some tid
      else scan_active items' thread cur
  end.

(** [ThreadInfo.__init__]: each attribute is read from the property
    first, and on [AttributeError] from the older accessor; an
    [AttributeError] of [getName()] or [isDaemon()] leaves the
    constructor. *)
Definition ThreadInfo_init (th : Threading) (thread : Thread) : result ThreadInfo :=
  let ident0 : option Z := Some 0 in
  let ident1 :=
      match attr_ident thread with
      | Some v => v
      | None => scan_active (_active th) thread ident0
      end in
  match (match attr_name thread with
         | Some n => Ret n
         | None => match meth_getName thread with
                   | Some n => Ret n
                   | None => Raise AttributeError
                   end
         end) with
  | Raise e => Raise e
  | Ret name1 =>
      match (match attr_daemon thread with
             | Some d => Ret d
             | None => match meth_isDaemon thread with
                       | Some d => Ret d
                       | None => Raise AttributeError
                       end
             end) with
      | Raise e => Raise e
      | Ret daemon1 => Ret (mk_ThreadInfo ident1 name1 daemon1)
      end
  end.

(** The list comprehension [[ThreadInfo(thread) for thread in l]]: the
    first constructor that raises ends it. *)
Fixpoint comprehension (th : Threading) (l : list Thread) : result (list ThreadInfo) :=
  match l with
  | [] => Ret []
  | thread :: l' =>
      match ThreadInfo_init th thread with
      | Raise e => Raise e
      | Ret i =>
          match comprehension th l' with
          | Raise e => Raise e
          | Ret is' => Ret (i :: is')
          end
      end
  end.

(** [get_current_threads()]. *)
Definition get_current_threads (th : Threading) : result (list ThreadInfo) :=
  comprehension th (enumerate th).

(** A thread of a current interpreter: every accessor is there. *)
Definition sample_thread (i : nat) (tid : Z) (n : string) (d : bool) : Thread :=
  mk_Thread i (Some (Some tid)) (Some n) (Some n) (Some d) (Some d).

(** The same thread as Python 2.5 shows it: no properties, only
    [getName()] and [isDaemon()]. *)
Definition legacy_thread (i : nat) (n : string) (d : bool) : Thread :=
  mk_Thread i None None (Some n) None (Some d).

(** A main thread and two daemon workers, registered under their
    identifiers. *)
Definition sample_threading : Threading :=
  mk_Threading
    [ (100, sample_thread 0 100 "MainThread" false);
      (101, sample_thread 1 101 "worker-1" true);
      (102, sample_thread 2 102 "worker-2" true) ]
    [ sample_thread 0 100 "MainThread" false;
      sample_thread 1 101 "worker-1" true;
      sample_thread 2 102 "worker-2" true ].

(** The same registry with the threads as Python 2.5 shows them. *)
Definition legacy_threading : Threading :=
  mk_Threading
    [ (100, legacy_thread 0 "MainThread" false);
      (101, legacy_thread 1 "worker-1" true);
      (102, legacy_thread 2 "worker-2" true) ]
    [ legacy_thread 0 "MainThread" false;
      legacy_thread 1 "worker-1" true;
      legacy_thread 2 "worker-2" true ].

(** The thread object answers for its name and for its daemon flag, by
    the property or by the older method. *)
Definition has_accessors (thread : Thread) : bool :=
  (match attr_name thread, meth_getName thread with
   | None, None => false
   | _, _ => true
   end)
  &&
  (match attr_daemon thread, meth_isDaemon thread with
   | None, None => false
   | _, _ => true
   end).

(* ------------------------------------------------------------------ *)
(** ** The built-ins on sample inputs                                  *)
(* ------------------------------------------------------------------ *)

Example split_ps_output :
  split isspace_bytes "  1024  2048" = ["1024"; "2048"].
Proof. reflexivity. Qed.

Example split_header_row :
  split isspace_bytes ("  RSS    VSZ" ++ LF ++ " 1024   2048" ++ LF)
  = ["RSS"; "VSZ"; "1024"; "2048"].
Proof. reflexivity. Qed.

Example split_on_colon :
  split_on ":" ("VmData:" ++ TAB ++ "    1234 kB" ++ LF)
  = ["VmData"; TAB ++ "    1234 kB" ++ LF].
Proof. reflexivity. Qed.

Example split_on_counts :
  split_on ":" "no colon" = ["no colon"] /\
  split_on ":" "a:b:c" = ["a"; "b"; "c"] /\
  split_on ":" ":" = [""; ""].
Proof. repeat split; reflexivity. Qed.

Example strip_value :
  strip isspace_str (TAB ++ "    1234 kB" ++ LF) = "1234 kB".
Proof. reflexivity. Qed.

Example int_examples :
  int isspace_str "1234" = Some 1234 /\
  int isspace_str " -12 " = Some (-12) /\
  int isspace_str "+7" = Some 7 /\
  int isspace_str "1_000" = Some 1000 /\
  int isspace_str "kB" = None /\
  int isspace_str "" = None /\
  int isspace_str "-" = None /\
  int isspace_str "1__0" = None /\
  int isspace_str "12_" = None /\
  int isspace_str "1 2" = None.
Proof. repeat split; reflexivity. Qed.

Example getitem_examples :
  getitem [1; 2; 3] (-1) = Some 3 /\
  getitem [1; 2; 3] (-2) = Some 2 /\
  getitem [1; 2; 3] 0 = Some 1 /\
  getitem [1; 2; 3] 3 = None /\
  getitem [1; 2; 3] (-4) = None.
Proof. repeat split; reflexivity. Qed.

Example str_of_int_examples :
  str_of_int 4711 = "4711" /\ str_of_int 0 = "0".
Proof. split; reflexivity. Qed.

Example key_map_get :
  dict_get key_map "VmData" = Some "Size of data segment" /\
  dict_get key_map "Name" = None.
Proof. split; reflexivity. Qed.

(* ------------------------------------------------------------------ *)
(** ** Reasoning about methods                                         *)
(* ------------------------------------------------------------------ *)

(** *** Frames *)

Section Frame.

Context {X : Type} (obs : Object -> X).

Lemma preserves_ret {A : Type} (a : A) : preserves obs (ret a).
Proof. intro self. reflexivity. Qed.

Lemma preserves_raise {A : Type} (e : exn) : preserves obs (@raise A e).
Proof. intro self. reflexivity. Qed.

Lemma preserves_get : preserves obs get.
Proof. intro self. reflexivity. Qed.

Lemma preserves_orraise {A : Type} (e : exn) (o : option A) :
  preserves obs (orraise e o).
Proof. destruct o; intro self; reflexivity. Qed.

Lemma preserves_assign (f : Object -> Object) :
  (forall o, obs (f o) = obs o) -> preserves obs (assign f).
Proof. intros Hf self. apply Hf. Qed.

Lemma preserves_bind {A B : Type} (m : M A) (k : A -> M B) :
  preserves obs m -> (forall a, preserves obs (k a)) -> preserves obs (bind m k).
Proof.
  intros Hm Hk self. unfold bind.
  specialize (Hm self).
  destruct (m self) as [self' [a | e]]; simpl in *.
  - rewrite Hk. exact Hm.
  - exact Hm.
Qed.

Lemma preserves_for_each {A : Type} (l : list A) (body : A -> M unit) :
  (forall x, preserves obs (body x)) -> preserves obs (for_each l body).
Proof.
  intros Hbody. induction l as [| x l IH]; simpl.
  - apply preserves_ret.
  - apply preserves_bind; auto.
Qed.

Lemma preserves_if {A : Type} (b : bool) (m1 m2 : M A) :
  preserves obs m1 -> preserves obs m2 -> preserves obs (if b then m1 else m2).
Proof. destruct b; auto. Qed.

End Frame.

(** *** Statements that cannot return [False] *)

Lemma never_false_ret_true : never_false (ret true).
Proof. intros self self' H. discriminate H. Qed.

Lemma never_false_raise (e : exn) : never_false (raise e).
Proof. intros self self' H. discriminate H. Qed.

Lemma never_false_bind {A : Type} (m : M A) (k : A -> M bool) :
  (forall a, never_false (k a)) -> never_false (bind m k).
Proof.
  intros Hk self self' H. unfold bind in H.
  destruct (m self) as [s [a | e]].
  - exact (Hk a s self' H).
  - discriminate H.
Qed.

(** *** Statements whose outcome does not depend on [self] *)

Lemma blind_ret {A : Type} (a : A) : blind (ret a).
Proof. intros s1 s2. reflexivity. Qed.

Lemma blind_raise {A : Type} (e : exn) : blind (@raise A e).
Proof. intros s1 s2. reflexivity. Qed.

Lemma blind_orraise {A : Type} (e : exn) (o : option A) : blind (orraise e o).
Proof. destruct o; intros s1 s2; reflexivity. Qed.

Lemma blind_assign (f : Object -> Object) : blind (assign f).
Proof. intros s1 s2. reflexivity. Qed.

Lemma blind_bind {A B : Type} (m : M A) (k : A -> M B) :
  blind m -> (forall a, blind (k a)) -> blind (bind m k).
Proof.
  intros Hm Hk s1 s2. unfold bind.
  specialize (Hm s1 s2).
  destruct (m s1) as [s1' [a1 | e1]], (m s2) as [s2' [a2 | e2]];
    simpl in Hm; try discriminate Hm.
  - injection Hm as ->. apply Hk.
  - injection Hm as ->. reflexivity.
Qed.

Lemma blind_for_each {A : Type} (l : list A) (body : A -> M unit) :
  (forall x, blind (body x)) -> blind (for_each l body).
Proof.
  intros Hbody. induction l as [| x l IH]; simpl.
  - apply blind_ret.
  - apply blind_bind; auto.
Qed.

Lemma blind_if {A : Type} (b : bool) (m1 m2 : M A) :
  blind m1 -> blind m2 -> blind (if b then m1 else m2).
Proof. destruct b; auto. Qed.

(* ------------------------------------------------------------------ *)
(** ** Facts about the [update] methods                                *)
(* ------------------------------------------------------------------ *)

(** The methods in closed form, where they have one. *)

Lemma update_Resource_eq (os : OS) (self : Object) :
  update_Resource os self =
  ( {| pid := pid self;
       rss := ru_maxrss (getrusage os) * 1024;
       vsz := ru_idrss (getrusage os) * 1024 + ru_ixrss (getrusage os) * 1024
              + ru_isrss (getrusage os) * 1024;
       pagefaults := ru_majflt (getrusage os);
       os_specific := os_specific self;
       data_segment := ru_idrss (getrusage os) * 1024;
       code_segment := code_segment self;
       shared_segment := ru_ixrss (getrusage os) * 1024;
       stack_segment := ru_isrss (getrusage os) * 1024;
       available := available self |},
    Ret (negb (ru_maxrss (getrusage os) * 1024 =? 0)) ).
Proof. reflexivity. Qed.

Lemma update_Win32_eq (os : OS) (self : Object) :
  update_Win32 os self =
  ( {| pid := pid self;
       rss := WorkingSetSize (GetProcessMemoryInfo os);
       vsz := PagefileUsage (GetProcessMemoryInfo os);
       pagefaults := PageFaultCount (GetProcessMemoryInfo os);
       os_specific := os_specific self;
       data_segment := data_segment self;
       code_segment := code_segment self;
       shared_segment := shared_segment self;
       stack_segment := stack_segment self;
       available := available self |},
    Ret true ).
Proof. reflexivity. Qed.

(** The argument vector of the child process. *)
Lemma update_PS_unfold (os : OS) (self : Object) :
  update_PS os self =
  match Popen os ["/bin/ps"; "-p" ++ str_of_int (pid self); "-o"; "rss,vsz"] with
  | None => (self, Ret false)
  | Some (out, returncode) =>
      let s := split isspace_bytes out in
      if (returncode =? 0) && (2 <=? Z.of_nat (List.length s)) then
        match getitem s (-1) with
        | None => (self, Raise IndexError)
        | Some tv =>
            match int isspace_bytes tv with
            | None => (self, Raise ValueError)
            | Some v =>
                match getitem s (-2) with
                | None => (set_vsz (v * 1024) self, Raise IndexError)
                | Some tr =>
                    match int isspace_bytes tr with
                    | None => (set_vsz (v * 1024) self, Raise ValueError)
                    | Some r =>
                        (set_rss (r * 1024) (set_vsz (v * 1024) self), Ret true)
                    end
                end
            end
        end
      else (self, Ret false)
  end.
Proof.
  unfold update_PS, bind, get.
  destruct (Popen os _) as [[out returncode] |]; [| reflexivity].
  cbv zeta.
  destruct ((returncode =? 0) && _); [| reflexivity].
  destruct (getitem _ (-1)) as [tv |]; [| reflexivity]. simpl.
  destruct (int isspace_bytes tv) as [v |]; [| reflexivity]. simpl.
  destruct (getitem _ (-2)) as [tr |]; [| reflexivity]. simpl.
  destruct (int isspace_bytes tr) as [r |]; reflexivity.
Qed.

(** A negative index counts from the end. *)
Lemma getitem_neg {A : Type} (l : list A) (k : nat) :
  (0 < k <= List.length l)%nat ->
  getitem l (- Z.of_nat k) = nth_error l (List.length l - k).
Proof.
  intros Hk. unfold getitem.
  assert (E1 : (- Z.of_nat k <? 0) = true) by (apply Z.ltb_lt; lia).
  rewrite E1.
  assert (E2 : (- Z.of_nat k + Z.of_nat (List.length l) <? 0) = false)
    by (apply Z.ltb_ge; lia).
  assert (E3 : (Z.of_nat (List.length l) <=? - Z.of_nat k + Z.of_nat (List.length l)) = false)
    by (apply Z.leb_gt; lia).
  rewrite E2, E3. cbn [orb].
  f_equal. lia.
Qed.

(** The last two items of a list of two or more. *)
Lemma getitem_app_last_two {A : Type} (pre : list A) (a b : A) :
  getitem (pre ++ [a; b]) (-2) = Some a /\ getitem (pre ++ [a; b]) (-1) = Some b.
Proof.
  change (-2) with (- Z.of_nat 2). change (-1) with (- Z.of_nat 1).
  rewrite !getitem_neg by (rewrite length_app; simpl; lia).
  rewrite length_app. simpl List.length.
  rewrite !nth_error_app2 by lia.
  replace (List.length pre + 2 - 2 - List.length pre)%nat with 0%nat by lia.
  replace (List.length pre + 2 - 1 - List.length pre)%nat with 1%nat by lia.
  split; reflexivity.
Qed.

(** No [update] assigns [pid]. *)

Lemma status_entry_preserves {X : Type} (obs : Object -> X) (entry : string) :
  (forall v o, obs (set_data_segment v o) = obs o) ->
  (forall v o, obs (set_code_segment v o) = obs o) ->
  (forall v o, obs (set_shared_segment v o) = obs o) ->
  (forall v o, obs (set_stack_segment v o) = obs o) ->
  (forall e o, obs (append_os_specific e o) = obs o) ->
  preserves obs (status_entry entry).
Proof.
  intros Hd Hc Hsh Hst Hos. unfold status_entry, size_in_bytes.
  destruct (split_on ":" entry) as [| key [| value [| x rest]]];
    try apply preserves_raise.
  apply preserves_bind.
  - repeat (apply preserves_if);
      repeat first
        [ apply preserves_ret | apply preserves_orraise
        | apply preserves_bind; [| intro]
        | apply preserves_assign; intro; auto ].
  - intros _. apply preserves_if; [| apply preserves_ret].
    destruct (dict_get key_map key);
      [apply preserves_assign; intro; auto | apply preserves_ret].
Qed.

Lemma update_PS_preserves_pid (os : OS) : preserves pid (update_PS os).
Proof.
  intro self. rewrite update_PS_unfold.
  destruct (Popen os _) as [[out returncode] |]; [| reflexivity].
  cbv zeta.
  destruct ((returncode =? 0) && _); [| reflexivity].
  destruct (getitem _ (-1)) as [tv |]; [| reflexivity].
  destruct (int isspace_bytes tv) as [v |]; [| reflexivity].
  destruct (getitem _ (-2)) as [tr |]; [| reflexivity].
  destruct (int isspace_bytes tr) as [r |]; reflexivity.
Qed.

Lemma update_Proc_preserves_pid (pagesize : Z) (os : OS) :
  preserves pid (update_Proc pagesize os).
Proof.
  unfold update_Proc.
  destruct (proc_self_stat os) as [stat |]; [| apply preserves_ret].
  destruct (proc_self_status os) as [status |]; [| apply preserves_ret].
  cbv zeta.
  repeat first
    [ apply preserves_ret | apply preserves_orraise
    | apply preserves_for_each; intro; apply status_entry_preserves; reflexivity
    | apply preserves_bind; [| intro]
    | apply preserves_assign; intro; reflexivity ].
Qed.

Lemma update_preserves_pid (c : Class) (h : Host) (os : OS) :
  preserves pid (update c h os).
Proof.
  destruct c; simpl.
  - apply preserves_ret.
  - apply update_PS_preserves_pid.
  - apply update_Proc_preserves_pid.
  - destruct (resource h); [| apply preserves_raise].
    intro self. rewrite update_Resource_eq. reflexivity.
  - destruct (win32 h); [| apply preserves_raise].
    intro self. rewrite update_Win32_eq. reflexivity.
Qed.

(** When [update] returns [False]. *)

Lemma update_PS_false (os : OS) (self self' : Object) :
  update_PS os self = (self', Ret false) -> self' = self.
Proof.
  rewrite update_PS_unfold.
  destruct (Popen os _) as [[out returncode] |]; [| congruence].
  cbv zeta.
  destruct ((returncode =? 0) && _); [| congruence].
  destruct (getitem _ (-1)) as [tv |]; [| discriminate].
  destruct (int isspace_bytes tv) as [v |]; [| discriminate].
  destruct (getitem _ (-2)) as [tr |]; [| discriminate].
  destruct (int isspace_bytes tr) as [r |]; discriminate.
Qed.

Lemma update_Proc_opened_never_false (pagesize : Z) (stat : string)
      (status : list string) :
  never_false
    (let stats := split isspace_str stat in
     t <- orraise IndexError (getitem stats 22) ;;
     v <- orraise ValueError (int isspace_str t) ;;
     assign (set_vsz v) ;;
     t <- orraise IndexError (getitem stats 23) ;;
     r <- orraise ValueError (int isspace_str t) ;;
     assign (set_rss (r * pagesize)) ;;
     t <- orraise IndexError (getitem stats 11) ;;
     p <- orraise ValueError (int isspace_str t) ;;
     assign (set_pagefaults p) ;;
     for_each status status_entry ;;
     ret true).
Proof.
  cbv zeta.
  repeat (apply never_false_bind; intro).
  apply never_false_ret_true.
Qed.

Lemma update_Proc_false (pagesize : Z) (os : OS) (self self' : Object) :
  update_Proc pagesize os self = (self', Ret false) ->
  self' = self /\ (proc_self_stat os = None \/ proc_self_status os = None).
Proof.
  unfold update_Proc.
  destruct (proc_self_stat os) as [stat |].
  - destruct (proc_self_status os) as [status |].
    + intros H. exfalso.
      exact (update_Proc_opened_never_false pagesize stat status self self' H).
    + unfold ret. intros H. injection H as <-. auto.
  - unfold ret. intros H. injection H as <-. auto.
Qed.

Lemma update_false_unchanged (c : Class) (h : Host) (os : OS)
      (self self' : Object) :
  c <> _ProcessMemoryInfoResource ->
  update c h os self = (self', Ret false) -> self' = self.
Proof.
  intros Hc. destruct c; simpl.
  - unfold update_base, ret. congruence.
  - apply update_PS_false.
  - intros H. apply update_Proc_false in H. tauto.
  - contradiction.
  - destruct (win32 h).
    + rewrite update_Win32_eq. discriminate.
    + discriminate.
Qed.

Lemma fresh_numeric_zero (h : Host) : numeric_zero (fresh h).
Proof. repeat split. Qed.

Lemma numeric_zero_set_available (b : bool) (o : Object) :
  numeric_zero o -> numeric_zero (set_available b o).
Proof. intros H. exact H. Qed.

(* ------------------------------------------------------------------ *)
(** ** C1: the fields after a failed update                            *)
(* ------------------------------------------------------------------ *)

(** C1, counterexample.  Under the resource strategy, on a host where
    [resource] imports, an accounting record with [ru_maxrss = 0] and
    [ru_idrss = 1] makes [update] return [False] on a fresh instance
    although it has set [data_segment] (and [vsz]) to 1024: a failed
    update does not leave every numeric field at zero, and the snapshot
    built there has [available == False] with a non-zero field. *)
Lemma C1_resource_false_nonzero :
  update _ProcessMemoryInfoResource host_posix os_rusage_idrss_only
         (fresh host_posix)
  = (set_vsz 1024 (set_data_segment 1024 (fresh host_posix)), Ret false)
  /\ __init__ _ProcessMemoryInfoResource host_posix os_rusage_idrss_only
     = Ret (set_available false
              (set_vsz 1024 (set_data_segment 1024 (fresh host_posix))))
  /\ ~ (forall c h os self',
          update c h os (fresh h) = (self', Ret false) -> numeric_zero self').
Proof.
  split; [reflexivity |]. split; [reflexivity |].
  intros H.
  specialize (H _ProcessMemoryInfoResource host_posix os_rusage_idrss_only _
                eq_refl).
  destruct H as (Hvsz & _). discriminate Hvsz.
Qed.

(** C1, as amended.  When [update] returns [False]:
    - for the base, ps, filesystem and Win32 classes [self] is exactly as
      it was, so on a fresh instance every numeric field is still zero
      and the snapshot, whose [available] is [False], has all numeric
      fields zero;
    - for the resource class [rss] is zero ([ru_maxrss] was zero), while
      the segment fields, [vsz] and [pagefaults] hold what the accounting
      record gave. *)
Theorem update_false_fields (c : Class) (h : Host) (os : OS)
        (self self' : Object) :
  update c h os self = (self', Ret false) ->
  (c <> _ProcessMemoryInfoResource ->
     self' = self /\
     (self = fresh h ->
        __init__ c h os = Ret (set_available false self') /\
        numeric_zero (set_available false self'))) /\
  (c = _ProcessMemoryInfoResource ->
     rss self' = 0 /\
     ru_maxrss (getrusage os) = 0 /\
     data_segment self' = ru_idrss (getrusage os) * 1024 /\
     shared_segment self' = ru_ixrss (getrusage os) * 1024 /\
     stack_segment self' = ru_isrss (getrusage os) * 1024 /\
     vsz self' = data_segment self' + shared_segment self' + stack_segment self' /\
     pagefaults self' = ru_majflt (getrusage os) /\
     code_segment self' = code_segment self).
Proof.
  intros Hupd. split.
  - intros Hc.
    assert (Hs : self' = self) by (eapply update_false_unchanged; eauto).
    split; [exact Hs |].
    intros Hfresh. subst self' self. split.
    + unfold __init__. rewrite Hupd. reflexivity.
    + apply numeric_zero_set_available, fresh_numeric_zero.
  - intros ->. simpl in Hupd.
    destruct (resource h); [| discriminate Hupd].
    rewrite update_Resource_eq in Hupd.
    injection Hupd as <- Hb.
    apply negb_false_iff, Z.eqb_eq in Hb.
    simpl. repeat split; try reflexivity; lia.
Qed.

(** The ps class on a host without [/bin/ps]: [update] returns [False] on
    a fresh instance and the snapshot has all numeric fields zero. *)
Lemma update_false_fields_witness :
  update _ProcessMemoryInfoPS host_posix os_nothing (fresh host_posix)
  = (fresh host_posix, Ret false) /\
  numeric_zero (set_available false (fresh host_posix)).
Proof.
  split; [reflexivity |].
  refine (proj2 (proj2 (proj1 (update_false_fields _ProcessMemoryInfoPS
                                 host_posix os_nothing (fresh host_posix)
                                 (fresh host_posix) eq_refl) _) eq_refl)).
  discriminate.
Defined.

(* ------------------------------------------------------------------ *)
(** ** C4: the resource-accounting strategy                            *)
(* ------------------------------------------------------------------ *)

Example Resource_update_500 :
  update _ProcessMemoryInfoResource host_posix os_rusage_500 (fresh host_posix)
  = (set_rss (500 * 1024) (fresh host_posix), Ret true).
Proof. reflexivity. Qed.

(** C4.  For every accounting record, [_ProcessMemoryInfoResource.update]
    returns (it does not raise) with [rss] the maximum resident size times
    1024, the data, shared and stack segments the corresponding accounting
    fields times 1024, [vsz] the sum of these three segment fields and
    [pagefaults] the major-fault counter; the value returned is true
    exactly when the resulting [rss] is non-zero, so it is false when the
    maximum resident size is 0, whatever the other fields. *)
Theorem Resource_update_maps (os : OS) (self : Object) :
  let usage := getrusage os in
  exists self' b,
    update_Resource os self = (self', Ret b) /\
    rss self' = ru_maxrss usage * 1024 /\
    data_segment self' = ru_idrss usage * 1024 /\
    shared_segment self' = ru_ixrss usage * 1024 /\
    stack_segment self' = ru_isrss usage * 1024 /\
    vsz self' = data_segment self' + shared_segment self' + stack_segment self' /\
    pagefaults self' = ru_majflt usage /\
    (b = true <-> rss self' <> 0) /\
    (ru_maxrss usage = 0 -> b = false).
Proof.
  intros usage. rewrite update_Resource_eq. fold usage.
  eexists. eexists. split; [reflexivity |]. simpl.
  repeat (split; [reflexivity |]).
  split.
  - rewrite negb_true_iff, Z.eqb_neq. tauto.
  - intros ->. reflexivity.
Qed.

(* ------------------------------------------------------------------ *)
(** ** C9: what [update] does not touch                                *)
(* ------------------------------------------------------------------ *)

Lemma update_PS_preserves_segments (os : OS) : preserves segments (update_PS os).
Proof.
  intro self. rewrite update_PS_unfold.
  destruct (Popen os _) as [[out returncode] |]; [| reflexivity].
  cbv zeta.
  destruct ((returncode =? 0) && _); [| reflexivity].
  destruct (getitem _ (-1)) as [tv |]; [| reflexivity].
  destruct (int isspace_bytes tv) as [v |]; [| reflexivity].
  destruct (getitem _ (-2)) as [tr |]; [| reflexivity].
  destruct (int isspace_bytes tr) as [r |]; reflexivity.
Qed.

Lemma update_Win32_preserves_segments (h : Host) (os : OS) :
  preserves segments (update _ProcessMemoryInfoWin32 h os).
Proof.
  simpl. destruct (win32 h); [| apply preserves_raise].
  intro self. rewrite update_Win32_eq. reflexivity.
Qed.

(** What [__init__] makes of an observation that [update] preserves. *)
Lemma init_preserved {X : Type} (obs : Object -> X) (c : Class) (h : Host)
      (os : OS) (o : Object) :
  preserves obs (update c h os) ->
  (forall b s, obs (set_available b s) = obs s) ->
  __init__ c h os = Ret o -> obs o = obs (fresh h).
Proof.
  intros Hp Ha. unfold __init__.
  specialize (Hp (fresh h)).
  destruct (update c h os (fresh h)) as [s [b | e]]; [| discriminate].
  intros H. injection H as <-. rewrite Ha. exact Hp.
Qed.

Example init_PS_sample :
  __init__ _ProcessMemoryInfoPS host_posix (os_ps "  1024  2048" 0)
  = Ret {| pid := 4711; rss := 1024 * 1024; vsz := 2048 * 1024; pagefaults := 0;
           os_specific := []; data_segment := 0; code_segment := 0;
           shared_segment := 0; stack_segment := 0; available := Some true |}.
Proof. reflexivity. Qed.

Example init_Win32_sample :
  __init__ _ProcessMemoryInfoWin32 host_windows os_win32
  = Ret {| pid := 4711; rss := 2000; vsz := 3000; pagefaults := 7;
           os_specific := []; data_segment := 0; code_segment := 0;
           shared_segment := 0; stack_segment := 0; available := Some true |}.
Proof. reflexivity. Qed.

(** C9.  Whatever class [self] belongs to and whether [update] returns or
    raises, [pid] afterwards is what it was.  The [update] of the ps class
    and of the Win32 class leave the data, code, shared and stack segment
    fields as they were, so every instance those two classes construct
    carries the pid captured by [__init__] and has the four segment fields
    equal to 0. *)
Theorem update_frame_pid_segments (c : Class) (h : Host) (os : OS)
        (self : Object) :
  pid (fst (update c h os self)) = pid self /\
  segments (fst (update _ProcessMemoryInfoPS h os self)) = segments self /\
  segments (fst (update _ProcessMemoryInfoWin32 h os self)) = segments self /\
  (forall o, __init__ c h os = Ret o -> pid o = getpid h) /\
  (forall o, __init__ _ProcessMemoryInfoPS h os = Ret o ->
             data_segment o = 0 /\ code_segment o = 0 /\
             shared_segment o = 0 /\ stack_segment o = 0) /\
  (forall o, __init__ _ProcessMemoryInfoWin32 h os = Ret o ->
             data_segment o = 0 /\ code_segment o = 0 /\
             shared_segment o = 0 /\ stack_segment o = 0).
Proof.
  split; [apply update_preserves_pid |].
  split; [apply update_PS_preserves_segments |].
  split; [apply update_Win32_preserves_segments |].
  split; [| split].
  - intros o Ho.
    apply (init_preserved pid) in Ho;
      [exact Ho | apply update_preserves_pid | reflexivity].
  - intros o Ho.
    apply (init_preserved segments) in Ho;
      [| apply update_PS_preserves_segments | reflexivity].
    unfold segments in Ho. simpl in Ho. injection Ho. auto.
  - intros o Ho.
    apply (init_preserved segments) in Ho;
      [| apply update_Win32_preserves_segments | reflexivity].
    unfold segments in Ho. simpl in Ho. injection Ho. auto.
Qed.

(* ------------------------------------------------------------------ *)
(** ** C5, C6, C10: the subprocess strategy                            *)
(* ------------------------------------------------------------------ *)

(** The method, given what the child printed. *)
Lemma update_PS_tokens (os : OS) (self : Object) (out : string)
      (pre : list string) (tr tv : string) :
  Popen os (ps_argv (pid self)) = Some (out, 0) ->
  split isspace_bytes out = (pre ++ [tr; tv])%list ->
  update_PS os self =
  match int isspace_bytes tv with
  | None => (self, Raise ValueError)
  | Some v =>
      match int isspace_bytes tr with
      | None => (set_vsz (v * 1024) self, Raise ValueError)
      | Some r => (set_rss (r * 1024) (set_vsz (v * 1024) self), Ret true)
      end
  end.
Proof.
  intros HP Hs. rewrite update_PS_unfold.
  change (Popen os (ps_argv (pid self))) with
    (Popen os ["/bin/ps"; "-p" ++ str_of_int (pid self); "-o"; "rss,vsz"]) in HP.
  rewrite HP. cbv zeta. rewrite Hs.
  destruct (getitem_app_last_two pre tr tv) as [E2 E1].
  rewrite E1, E2.
  assert (Hlen : (2 <=? Z.of_nat (List.length (pre ++ [tr; tv]))) = true).
  { apply Z.leb_le. rewrite length_app. simpl. lia. }
  rewrite Hlen. reflexivity.
Qed.

Example PS_update_sample :
  update_PS (os_ps "  1024  2048" 0) (fresh host_posix)
  = (set_rss (1024 * 1024) (set_vsz (2048 * 1024) (fresh host_posix)), Ret true).
Proof. reflexivity. Qed.

(** C5.  When the child was launched, exited with status zero and printed
    at least two whitespace-separated tokens, the last two of which read
    as the integers [r] and [v], [_ProcessMemoryInfoPS.update] sets [vsz]
    to [v * 1024] (the last token) and [rss] to [r * 1024] (the one
    before), touches nothing else, and returns [True]. *)
Theorem PS_update_success (os : OS) (self : Object) (out : string)
        (pre : list string) (tr tv : string) (r v : Z) :
  Popen os (ps_argv (pid self)) = Some (out, 0) ->
  split isspace_bytes out = (pre ++ [tr; tv])%list ->
  int isspace_bytes tv = Some v ->
  int isspace_bytes tr = Some r ->
  update_PS os self = (set_rss (r * 1024) (set_vsz (v * 1024) self), Ret true) /\
  vsz (fst (update_PS os self)) = v * 1024 /\
  rss (fst (update_PS os self)) = r * 1024.
Proof.
  intros HP Hs Hv Hr.
  rewrite (update_PS_tokens os self out pre tr tv HP Hs), Hv, Hr.
  repeat split.
Qed.

(** The output ["  1024  2048"] with exit status zero. *)
Lemma PS_update_success_witness :
  update_PS (os_ps "  1024  2048" 0) (fresh host_posix)
  = (set_rss (1024 * 1024) (set_vsz (2048 * 1024) (fresh host_posix)), Ret true) /\
  vsz (fst (update_PS (os_ps "  1024  2048" 0) (fresh host_posix))) = 2048 * 1024 /\
  rss (fst (update_PS (os_ps "  1024  2048" 0) (fresh host_posix))) = 1024 * 1024.
Proof.
  exact (PS_update_success (os_ps "  1024  2048" 0) (fresh host_posix)
           "  1024  2048" [] "1024" "2048" 1024 2048
           eq_refl eq_refl eq_refl eq_refl).
Defined.

(** C6, counterexample.  The child is launched, prints only the header
    row ["  RSS    VSZ"] and exits with status zero: there are two tokens,
    [int("VSZ")] raises [ValueError], and nothing in [update] catches it.
    So it is not the case that [update] of the ps class always returns. *)
Lemma C6_nonnumeric_output_raises :
  update_PS (os_ps ("  RSS    VSZ" ++ LF) 0) (fresh host_posix)
  = (fresh host_posix, Raise ValueError)
  /\ ~ (forall os self, exists self' b, update_PS os self = (self', Ret b)).
Proof.
  split; [reflexivity |].
  intros H.
  destruct (H (os_ps ("  RSS    VSZ" ++ LF) 0) (fresh host_posix))
    as (self' & b & Hb).
  discriminate Hb.
Qed.

(** C6, as amended.  In [_ProcessMemoryInfoPS.update], a launch failure, a
    non-zero exit status, and an output of fewer than two tokens each make
    the method return [False] without raising and without touching
    [self].  Non-numeric output is not swallowed: with exit status zero
    and at least two tokens, a last token that is not an integer makes the
    method raise [ValueError] with [self] untouched, and a numeric last
    token followed by a non-numeric one before it makes it raise
    [ValueError] after [vsz] has been assigned. *)
Theorem PS_update_failure_modes (os : OS) (self : Object) :
  (Popen os (ps_argv (pid self)) = None ->
   update_PS os self = (self, Ret false)) /\
  (forall out returncode,
      Popen os (ps_argv (pid self)) = Some (out, returncode) ->
      returncode <> 0 ->
      update_PS os self = (self, Ret false)) /\
  (forall out returncode,
      Popen os (ps_argv (pid self)) = Some (out, returncode) ->
      (List.length (split isspace_bytes out) < 2)%nat ->
      update_PS os self = (self, Ret false)) /\
  (forall out pre tr tv,
      Popen os (ps_argv (pid self)) = Some (out, 0) ->
      split isspace_bytes out = (pre ++ [tr; tv])%list ->
      int isspace_bytes tv = None ->
      update_PS os self = (self, Raise ValueError)) /\
  (forall out pre tr tv v,
      Popen os (ps_argv (pid self)) = Some (out, 0) ->
      split isspace_bytes out = (pre ++ [tr; tv])%list ->
      int isspace_bytes tv = Some v ->
      int isspace_bytes tr = None ->
      update_PS os self = (set_vsz (v * 1024) self, Raise ValueError)).
Proof.
  unfold ps_argv. repeat split.
  - intros HP. rewrite update_PS_unfold, HP. reflexivity.
  - intros out rc HP Hrc. rewrite update_PS_unfold, HP. cbv zeta.
    apply Z.eqb_neq in Hrc. rewrite Hrc. reflexivity.
  - intros out rc HP Hlen. rewrite update_PS_unfold, HP. cbv zeta.
    assert (E : (2 <=? Z.of_nat (List.length (split isspace_bytes out))) = false)
      by (apply Z.leb_gt; lia).
    rewrite E, andb_false_r. reflexivity.
  - intros out pre tr tv HP Hs Hv.
    rewrite (update_PS_tokens os self out pre tr tv HP Hs), Hv. reflexivity.
  - intros out pre tr tv v HP Hs Hv Hr.
    rewrite (update_PS_tokens os self out pre tr tv HP Hs), Hv, Hr. reflexivity.
Qed.

Example PS_update_launch_failure :
  update_PS os_nothing (fresh host_posix) = (fresh host_posix, Ret false).
Proof. reflexivity. Qed.

Example PS_update_nonzero_exit :
  update_PS (os_ps ("  RSS    VSZ" ++ LF) 1) (fresh host_posix)
  = (fresh host_posix, Ret false).
Proof. reflexivity. Qed.

Example PS_update_one_token :
  update_PS (os_ps "1024" 0) (fresh host_posix) = (fresh host_posix, Ret false).
Proof. reflexivity. Qed.

Example PS_update_bad_rss :
  update_PS (os_ps "- 2048" 0) (fresh host_posix)
  = (set_vsz (2048 * 1024) (fresh host_posix), Raise ValueError).
Proof. reflexivity. Qed.

(** C10.  Two runs of the child with the same exit status, each printing
    at least two tokens, the last two being the same in both: [update] of
    the ps class ends in the same state of [self] with the same outcome,
    in particular with the same [vsz] and [rss].  Whatever precedes the
    last two tokens (a header row, say) plays no part. *)
Theorem PS_update_last_two_tokens (os1 os2 : OS) (self : Object)
        (out1 out2 : string) (returncode : Z) (pre1 pre2 : list string)
        (tr tv : string) :
  Popen os1 (ps_argv (pid self)) = Some (out1, returncode) ->
  Popen os2 (ps_argv (pid self)) = Some (out2, returncode) ->
  split isspace_bytes out1 = (pre1 ++ [tr; tv])%list ->
  split isspace_bytes out2 = (pre2 ++ [tr; tv])%list ->
  update_PS os1 self = update_PS os2 self /\
  vsz (fst (update_PS os1 self)) = vsz (fst (update_PS os2 self)) /\
  rss (fst (update_PS os1 self)) = rss (fst (update_PS os2 self)).
Proof.
  intros HP1 HP2 Hs1 Hs2.
  assert (E : update_PS os1 self = update_PS os2 self).
  { destruct (Z.eq_dec returncode 0) as [-> | Hrc].
    - rewrite (update_PS_tokens os1 self out1 pre1 tr tv HP1 Hs1).
      rewrite (update_PS_tokens os2 self out2 pre2 tr tv HP2 Hs2).
      reflexivity.
    - unfold ps_argv in HP1, HP2.
      rewrite !update_PS_unfold, HP1, HP2. cbv zeta.
      apply Z.eqb_neq in Hrc. rewrite Hrc. reflexivity. }
  rewrite E. repeat split.
Qed.

(** An output with a header row and one without, same last two tokens. *)
Lemma PS_update_last_two_tokens_witness :
  update_PS (os_ps ("  RSS    VSZ" ++ LF ++ " 1024   2048" ++ LF) 0)
            (fresh host_posix)
  = update_PS (os_ps "  1024  2048" 0) (fresh host_posix).
Proof.
  exact (proj1 (PS_update_last_two_tokens
                  (os_ps ("  RSS    VSZ" ++ LF ++ " 1024   2048" ++ LF) 0)
                  (os_ps "  1024  2048" 0) (fresh host_posix)
                  ("  RSS    VSZ" ++ LF ++ " 1024   2048" ++ LF) "  1024  2048" 0
                  ["RSS"; "VSZ"] [] "1024" "2048"
                  eq_refl eq_refl eq_refl eq_refl)).
Defined.

(* ------------------------------------------------------------------ *)
(** ** C3, C8: the filesystem strategy                                 *)
(* ------------------------------------------------------------------ *)

(** One line of the status file, in closed form. *)
Lemma status_entry_eq (entry key value : string) (s : Object) :
  split_on ":" entry = [key; value] ->
  status_entry entry s =
  if segment_key key then
    match getitem (split isspace_str value) 0 with
    | None => (s, Raise IndexError)
    | Some t =>
        match int isspace_str t with
        | None => (s, Raise ValueError)
        | Some n =>
            ( fold_left (fun o e => append_os_specific e o)
                        (entry_labels key value) (store_segment key (n * 1024) s),
              Ret tt )
        end
    end
  else (fold_left (fun o e => append_os_specific e o) (entry_labels key value) s,
        Ret tt).
Proof.
  intros Hsplit. unfold status_entry. rewrite Hsplit.
  unfold segment_key, store_segment, entry_labels, size_in_bytes, bind.
  destruct (String.eqb key "VmData") eqn:E1;
    [| destruct (String.eqb key "VmExe") eqn:E2;
       [| destruct (String.eqb key "VmLib") eqn:E3;
          [| destruct (String.eqb key "VmStk") eqn:E4]]];
    cbn [orb];
    try (destruct (getitem (split isspace_str value) 0) as [t |]; [| reflexivity];
         cbn [orraise ret];
         destruct (int isspace_str t) as [n |]; [| reflexivity];
         cbn [orraise ret assign]);
    destruct (dict_get key_map key) as [[| c label] |]; reflexivity.
Qed.

Lemma status_entry_bad_unpack (entry : string) (s : Object) :
  List.length (split_on ":" entry) <> 2%nat ->
  status_entry entry s = (s, Raise ValueError).
Proof.
  intros Hlen. unfold status_entry.
  destruct (split_on ":" entry) as [| key [| value [| x rest]]];
    try reflexivity.
  simpl in Hlen. contradiction.
Qed.

Lemma os_specific_fold_append (l : list (string * string)) (o : Object) :
  os_specific (fold_left (fun o e => append_os_specific e o) l o)
  = (os_specific o ++ l)%list.
Proof.
  revert o. induction l as [| e l IH]; intro o; simpl.
  - rewrite app_nil_r. reflexivity.
  - rewrite IH. simpl. rewrite <- app_assoc. reflexivity.
Qed.

Lemma data_segment_fold_append (l : list (string * string)) (o : Object) :
  data_segment (fold_left (fun o e => append_os_specific e o) l o)
  = data_segment o.
Proof.
  revert o. induction l as [| e l IH]; intro o; simpl.
  - reflexivity.
  - rewrite IH. reflexivity.
Qed.

(** A well-formed line is processed without raising and adds its labels. *)
Lemma status_entry_ok (entry : string) (s : Object) :
  entry_ok entry = true ->
  exists s', status_entry entry s = (s', Ret tt) /\
             os_specific s' = (os_specific s ++ line_labels entry)%list.
Proof.
  unfold entry_ok, line_labels.
  destruct (split_on ":" entry) as [| key [| value [| x rest]]] eqn:Hsplit;
    try discriminate.
  intros Hok. rewrite (status_entry_eq entry key value s Hsplit).
  destruct (segment_key key).
  - unfold value_ok in Hok.
    destruct (getitem (split isspace_str value) 0) as [t |]; [| discriminate].
    destruct (int isspace_str t) as [n |]; [| discriminate].
    eexists. split; [reflexivity |].
    rewrite os_specific_fold_append. f_equal.
    unfold store_segment.
    repeat match goal with |- context [if ?b then _ else _] => destruct b end;
      reflexivity.
  - eexists. split; [reflexivity |].
    apply os_specific_fold_append.
Qed.

(** The loop over well-formed lines completes; [os_specific] grows by the
    labels of the lines, in order. *)
Lemma for_each_status_ok (l : list string) (s : Object) :
  forallb entry_ok l = true ->
  exists s', for_each l status_entry s = (s', Ret tt) /\
             os_specific s' = (os_specific s ++ flat_map line_labels l)%list.
Proof.
  revert s. induction l as [| e l IH]; intros s Hall; simpl.
  - exists s. rewrite app_nil_r. split; reflexivity.
  - simpl in Hall. apply andb_true_iff in Hall as [He Hl].
    destruct (status_entry_ok e s He) as (s1 & Hs1 & Hos1).
    destruct (IH s1 Hl) as (s2 & Hs2 & Hos2).
    exists s2. unfold bind. rewrite Hs1. split; [exact Hs2 |].
    rewrite Hos2, Hos1, <- app_assoc. reflexivity.
Qed.

Lemma for_each_app {A : Type} (l1 l2 : list A) (body : A -> M unit) (s : Object) :
  for_each (l1 ++ l2) body s
  = (for_each l1 body ;; for_each l2 body) s.
Proof.
  revert s. induction l1 as [| x l1 IH]; intro s; simpl.
  - reflexivity.
  - unfold bind in *. destruct (body x s) as [s1 [[] | e]]; [| reflexivity].
    apply IH.
Qed.

(** A line whose key is not [VmData] leaves [data_segment] alone. *)
Lemma status_entry_keeps_data_segment (entry : string) :
  has_key "VmData" entry = false ->
  preserves data_segment (status_entry entry).
Proof.
  unfold has_key. intros Hk s.
  destruct (split_on ":" entry) as [| key [| value [| x rest]]] eqn:Hsplit;
    try (rewrite status_entry_bad_unpack; [reflexivity | rewrite Hsplit; simpl; lia]).
  rewrite (status_entry_eq entry key value s Hsplit).
  destruct (segment_key key).
  - destruct (getitem (split isspace_str value) 0) as [t |]; [| reflexivity].
    destruct (int isspace_str t) as [n |]; [| reflexivity].
    simpl. rewrite data_segment_fold_append.
    unfold store_segment. rewrite Hk.
    repeat match goal with |- context [if ?b then _ else _] => destruct b end;
      reflexivity.
  - simpl. apply data_segment_fold_append.
Qed.

(** A [VmData] line with a numeric value sets [data_segment]. *)
Lemma status_entry_VmData (entry value tok : string) (n : Z) (s : Object) :
  split_on ":" entry = ["VmData"; value] ->
  getitem (split isspace_str value) 0 = Some tok ->
  int isspace_str tok = Some n ->
  exists s', status_entry entry s = (s', Ret tt) /\ data_segment s' = n * 1024.
Proof.
  intros Hentry Htok Hn.
  rewrite (status_entry_eq entry "VmData" value s Hentry).
  change (segment_key "VmData") with true. cbv iota.
  rewrite Htok, Hn.
  eexists. split; [reflexivity |].
  rewrite data_segment_fold_append. reflexivity.
Qed.

Lemma for_each_keeps_data_segment (l : list string) :
  forallb (fun e => negb (has_key "VmData" e)) l = true ->
  preserves data_segment (for_each l status_entry).
Proof.
  induction l as [| e l IH]; simpl; intros Hall.
  - apply preserves_ret.
  - apply andb_true_iff in Hall as [He Hl].
    apply preserves_bind.
    + apply status_entry_keeps_data_segment. apply negb_true_iff. exact He.
    + intros _. exact (IH Hl).
Qed.

(** The method once both files are open and the three stat fields read
    as integers: the three assignments, then the loop. *)
Lemma update_Proc_stat_ok (pagesize : Z) (os : OS) (self : Object)
      (stat : string) (status : list string) (t23 t24 t12 : string)
      (v r p : Z) :
  proc_self_stat os = Some stat ->
  proc_self_status os = Some status ->
  getitem (split isspace_str stat) 22 = Some t23 ->
  int isspace_str t23 = Some v ->
  getitem (split isspace_str stat) 23 = Some t24 ->
  int isspace_str t24 = Some r ->
  getitem (split isspace_str stat) 11 = Some t12 ->
  int isspace_str t12 = Some p ->
  update_Proc pagesize os self
  = (for_each status status_entry ;; ret true)
      (set_pagefaults p (set_rss (r * pagesize) (set_vsz v self))).
Proof.
  intros Hstat Hstatus H23 Hv H24 Hr H12 Hp.
  unfold update_Proc. rewrite Hstat, Hstatus. cbv zeta.
  rewrite H23, H24, H12.
  unfold bind at 1. cbn [orraise ret].
  unfold bind at 1. rewrite Hv. cbn [orraise ret].
  unfold bind at 1. cbn [assign].
  unfold bind at 1. cbn [orraise ret].
  unfold bind at 1. rewrite Hr. cbn [orraise ret].
  unfold bind at 1. cbn [assign].
  unfold bind at 1. cbn [orraise ret].
  unfold bind at 1. rewrite Hp. cbn [orraise ret].
  unfold bind at 1. cbn [assign].
  reflexivity.
Qed.

Lemma status_loop_preserves_stat_fields (l : list string) :
  preserves (fun o => (vsz o, rss o, pagefaults o)) (for_each l status_entry).
Proof.
  apply preserves_for_each. intro e.
  apply status_entry_preserves; reflexivity.
Qed.

Example Proc_update_sample :
  update_Proc 4096 (os_proc sample_stat sample_status) (fresh host_posix)
  = ( {| pid := 4711; rss := 2000 * 4096; vsz := 12345678; pagefaults := 3;
         os_specific := [ ("Resident set size", "8000 kB");
                          ("Size of data segment", "1234 kB");
                          ("Size of stack segment", "132 kB") ];
         data_segment := 1234 * 1024; code_segment := 0; shared_segment := 0;
         stack_segment := 132 * 1024; available := None |},
      Ret true ).
Proof. reflexivity. Qed.

(** C3.  Both files being readable, let the 23rd, 24th and 12th
    whitespace-delimited fields of the stat text read as the integers
    [v], [r] and [p].  Then after [_ProcessMemoryInfoProc.update], whether
    or not the status loop completes, [vsz] is [v], [rss] is [r] times the
    page size and [pagefaults] is [p].  If moreover every status line is
    well formed, the method returns [True], [os_specific] has grown by
    the (label, stripped value) pairs of the lines with a key of
    [key_map], in order, and for a line [VmData:<value>] whose value
    starts with the integer [n], with no [VmData] line after it,
    [data_segment] is [n * 1024] and the pair ("Size of data segment",
    stripped value) is in [os_specific]. *)
Theorem Proc_update_parses (pagesize : Z) (os : OS) (self : Object)
        (stat : string) (status : list string) (t23 t24 t12 : string)
        (v r p : Z) :
  proc_self_stat os = Some stat ->
  proc_self_status os = Some status ->
  getitem (split isspace_str stat) 22 = Some t23 ->
  int isspace_str t23 = Some v ->
  getitem (split isspace_str stat) 23 = Some t24 ->
  int isspace_str t24 = Some r ->
  getitem (split isspace_str stat) 11 = Some t12 ->
  int isspace_str t12 = Some p ->
  let self' := fst (update_Proc pagesize os self) in
  vsz self' = v /\
  rss self' = r * pagesize /\
  pagefaults self' = p /\
  (forallb entry_ok status = true ->
   update_Proc pagesize os self = (self', Ret true) /\
   os_specific self' = (os_specific self ++ flat_map line_labels status)%list /\
   (forall pre entry post value tok n,
       status = (pre ++ entry :: post)%list ->
       split_on ":" entry = ["VmData"; value] ->
       getitem (split isspace_str value) 0 = Some tok ->
       int isspace_str tok = Some n ->
       forallb (fun e => negb (has_key "VmData" e)) post = true ->
       data_segment self' = n * 1024 /\
       line_labels entry = [("Size of data segment", strip isspace_str value)] /\
       In ("Size of data segment", strip isspace_str value) (os_specific self'))).
Proof.
  intros Hstat Hstatus H23 Hv H24 Hr H12 Hp self'.
  pose proof (update_Proc_stat_ok pagesize os self stat status t23 t24 t12
                v r p Hstat Hstatus H23 Hv H24 Hr H12 Hp) as Hupd.
  set (s0 := set_pagefaults p (set_rss (r * pagesize) (set_vsz v self))) in Hupd.
  assert (Hfst : self' = fst (for_each status status_entry s0)).
  { unfold self'. rewrite Hupd. unfold bind.
    destruct (for_each status status_entry s0) as [s1 [[] | e]]; reflexivity. }
  pose proof (status_loop_preserves_stat_fields status s0) as Hframe.
  rewrite <- Hfst in Hframe. simpl in Hframe.
  injection Hframe as Hv' Hr' Hp'.
  split; [exact Hv' |]. split; [exact Hr' |]. split; [exact Hp' |].
  intros Hok.
  destruct (for_each_status_ok status s0 Hok) as (s1 & Hrun & Hos).
  rewrite Hrun in Hfst. simpl in Hfst. subst s1.
  split; [| split].
  - rewrite Hupd. unfold bind. rewrite Hrun. reflexivity.
  - rewrite Hos. reflexivity.
  - intros pre entry post value tok n Hsplit Hentry Htok Hn Hpost.
    assert (Hlab : line_labels entry
                   = [("Size of data segment", strip isspace_str value)]).
    { unfold line_labels. rewrite Hentry. reflexivity. }
    split; [| split].
    + subst status.
      rewrite forallb_app in Hok. apply andb_true_iff in Hok as [Hpre Hrest].
      simpl in Hrest. apply andb_true_iff in Hrest as [He Hpost_ok].
      rewrite for_each_app in Hrun.
      destruct (for_each_status_ok pre s0 Hpre) as (sa & Hsa & _).
      destruct (status_entry_VmData entry value tok n sa Hentry Htok Hn)
        as (sb & Hsb & Hdata).
      unfold bind in Hrun. rewrite Hsa in Hrun.
      cbn [for_each] in Hrun. unfold bind in Hrun. rewrite Hsb in Hrun.
      pose proof (for_each_keeps_data_segment post Hpost sb) as Hkeep.
      rewrite Hrun in Hkeep. simpl in Hkeep. rewrite Hkeep. exact Hdata.
    + exact Hlab.
    + rewrite Hos. apply in_or_app. right.
      subst status. rewrite flat_map_app. apply in_or_app. right.
      simpl. rewrite Hlab. left. reflexivity.
Qed.

(** The sample stat text and status lines, page size 4096. *)
Lemma Proc_update_parses_witness :
  vsz (fst (update_Proc 4096 (os_proc sample_stat sample_status)
                        (fresh host_posix))) = 12345678 /\
  rss (fst (update_Proc 4096 (os_proc sample_stat sample_status)
                        (fresh host_posix))) = 2000 * 4096 /\
  pagefaults (fst (update_Proc 4096 (os_proc sample_stat sample_status)
                               (fresh host_posix))) = 3 /\
  data_segment (fst (update_Proc 4096 (os_proc sample_stat sample_status)
                                 (fresh host_posix))) = 1234 * 1024 /\
  In ("Size of data segment", "1234 kB")
     (os_specific (fst (update_Proc 4096 (os_proc sample_stat sample_status)
                                    (fresh host_posix)))).
Proof.
  pose proof (Proc_update_parses 4096 (os_proc sample_stat sample_status)
                (fresh host_posix) sample_stat sample_status
                "12345678" "2000" "3" 12345678 2000 3
                eq_refl eq_refl eq_refl eq_refl eq_refl eq_refl eq_refl eq_refl)
    as (Hv & Hr & Hp & Hrest).
  destruct (Hrest eq_refl) as (_ & _ & Hdata).
  destruct (Hdata [ "Name:" ++ TAB ++ "python" ++ LF;
                    "VmRSS:" ++ TAB ++ "    8000 kB" ++ LF ]
                  ("VmData:" ++ TAB ++ "    1234 kB" ++ LF)
                  [ "VmStk:" ++ TAB ++ "     132 kB" ++ LF;
                    "Threads:" ++ TAB ++ "1" ++ LF ]
                  (TAB ++ "    1234 kB" ++ LF) "1234" 1234
                  eq_refl eq_refl eq_refl eq_refl eq_refl) as (Hd & _ & Hin).
  repeat split; assumption.
Defined.

Example Proc_update_unreadable :
  update_Proc 4096 os_nothing (fresh host_posix) = (fresh host_posix, Ret false).
Proof. reflexivity. Qed.

Example Proc_update_bad_vsize :
  update_Proc 4096
    (os_proc "1 (sh) S 1 1 1 0 -1 0 0 0 0 0 0 0 0 0 20 0 1 0 100 x 2000" [])
    (fresh host_posix)
  = (fresh host_posix, Raise ValueError).
Proof. reflexivity. Qed.

Example Proc_update_short_stat :
  update_Proc 4096 (os_proc "1 (sh) S" []) (fresh host_posix)
  = (fresh host_posix, Raise IndexError).
Proof. reflexivity. Qed.

Example Proc_update_two_colons :
  snd (update_Proc 4096 (os_proc sample_stat ["Name:" ++ TAB ++ "a:b" ++ LF])
                   (fresh host_posix))
  = Raise ValueError.
Proof. reflexivity. Qed.

Example Proc_update_no_colon :
  snd (update_Proc 4096 (os_proc sample_stat [LF]) (fresh host_posix))
  = Raise ValueError.
Proof. reflexivity. Qed.

(** C8.  In [_ProcessMemoryInfoProc.update]:
    - a file that cannot be opened makes the method return [False] with
      [self] untouched, and this is the only way it returns [False];
    - both files being open, a stat text with fewer than 23 fields makes
      it raise [IndexError], and a 23rd field that is not an integer
      makes it raise [ValueError], [self] untouched in both cases;
    - both files being open and the three stat fields numeric, a status
      line that does not split at [':'] into exactly two pieces, the
      lines before it being well formed, makes it raise [ValueError].
    Nothing catches these exceptions: they are the outcome of [update]. *)
Theorem Proc_update_malformed (pagesize : Z) (os : OS) (self : Object) :
  (proc_self_stat os = None \/ proc_self_status os = None ->
   update_Proc pagesize os self = (self, Ret false)) /\
  (forall self',
      update_Proc pagesize os self = (self', Ret false) ->
      proc_self_stat os = None \/ proc_self_status os = None) /\
  (forall stat status,
      proc_self_stat os = Some stat ->
      proc_self_status os = Some status ->
      (getitem (split isspace_str stat) 22 = None ->
       update_Proc pagesize os self = (self, Raise IndexError)) /\
      (forall t23,
          getitem (split isspace_str stat) 22 = Some t23 ->
          int isspace_str t23 = None ->
          update_Proc pagesize os self = (self, Raise ValueError)) /\
      (forall t23 t24 t12 v r p pre entry post,
          getitem (split isspace_str stat) 22 = Some t23 ->
          int isspace_str t23 = Some v ->
          getitem (split isspace_str stat) 23 = Some t24 ->
          int isspace_str t24 = Some r ->
          getitem (split isspace_str stat) 11 = Some t12 ->
          int isspace_str t12 = Some p ->
          status = (pre ++ entry :: post)%list ->
          forallb entry_ok pre = true ->
          List.length (split_on ":" entry) <> 2%nat ->
          snd (update_Proc pagesize os self) = Raise ValueError)).
Proof.
  split; [| split].
  - unfold update_Proc. intros [H | H].
    + rewrite H. reflexivity.
    + rewrite H. destruct (proc_self_stat os); reflexivity.
  - intros self' H. apply update_Proc_false in H. tauto.
  - intros stat status Hstat Hstatus. split; [| split].
    + intros H22. unfold update_Proc. rewrite Hstat, Hstatus. cbv zeta.
      rewrite H22. reflexivity.
    + intros t23 H22 Hv. unfold update_Proc. rewrite Hstat, Hstatus. cbv zeta.
      rewrite H22. unfold bind at 1. cbn [orraise ret].
      unfold bind at 1. rewrite Hv. reflexivity.
    + intros t23 t24 t12 v r p pre entry post H23 Hv H24 Hr H12 Hp
             Hsplit Hpre Hbad.
      rewrite (update_Proc_stat_ok pagesize os self stat status t23 t24 t12
                 v r p Hstat Hstatus H23 Hv H24 Hr H12 Hp).
      subst status.
      destruct (for_each_status_ok pre
                  (set_pagefaults p (set_rss (r * pagesize) (set_vsz v self)))
                  Hpre) as (sa & Hsa & _).
      unfold bind at 1. rewrite for_each_app.
      unfold bind at 1. rewrite Hsa. cbn [for_each]. unfold bind at 1.
      rewrite (status_entry_bad_unpack entry sa Hbad). reflexivity.
Qed.

(* ------------------------------------------------------------------ *)
(** ** C7: [is_available]                                              *)
(* ------------------------------------------------------------------ *)

Lemma status_entry_blind (entry : string) : blind (status_entry entry).
Proof.
  intros s1 s2.
  destruct (split_on ":" entry) as [| key [| value [| x rest]]] eqn:Hsplit;
    try (rewrite !status_entry_bad_unpack by (rewrite Hsplit; simpl; lia);
         reflexivity).
  rewrite !(status_entry_eq entry key value _ Hsplit).
  destruct (segment_key key); [| reflexivity].
  destruct (getitem (split isspace_str value) 0) as [t |]; [| reflexivity].
  destruct (int isspace_str t); reflexivity.
Qed.

Lemma update_Proc_blind (pagesize : Z) (os : OS) : blind (update_Proc pagesize os).
Proof.
  unfold update_Proc.
  destruct (proc_self_stat os) as [stat |]; [| apply blind_ret].
  destruct (proc_self_status os) as [status |]; [| apply blind_ret].
  cbv zeta.
  repeat first
    [ apply blind_ret | apply blind_orraise | apply blind_assign
    | apply blind_for_each; intro; apply status_entry_blind
    | apply blind_bind; [| intro] ].
Qed.

(** The outcome of [update] depends on [self] through [pid] only. *)
Lemma update_outcome_pid (c : Class) (h : Host) (os : OS) (s1 s2 : Object) :
  pid s1 = pid s2 ->
  snd (update c h os s1) = snd (update c h os s2).
Proof.
  intros Hpid. destruct c; simpl.
  - reflexivity.
  - rewrite !update_PS_unfold, Hpid.
    destruct (Popen os _) as [[out returncode] |]; [| reflexivity].
    cbv zeta.
    destruct ((returncode =? 0) && _); [| reflexivity].
    destruct (getitem _ (-1)) as [tv |]; [| reflexivity].
    destruct (int isspace_bytes tv) as [v |]; [| reflexivity].
    destruct (getitem _ (-2)) as [tr |]; [| reflexivity].
    destruct (int isspace_bytes tr) as [r |]; reflexivity.
  - apply update_Proc_blind.
  - destruct (resource h); [| reflexivity].
    rewrite !update_Resource_eq. reflexivity.
  - destruct (win32 h); [| reflexivity].
    rewrite !update_Win32_eq. reflexivity.
Qed.

(** An instance that [__init__] returned: what [update] left, with
    [available] set to what it answered. *)
Lemma init_inv (c : Class) (h : Host) (os : OS) (o : Object) :
  __init__ c h os = Ret o ->
  exists s b, update c h os (fresh h) = (s, Ret b) /\ o = set_available b s.
Proof.
  unfold __init__.
  destruct (update c h os (fresh h)) as [s [b | e]]; [| discriminate].
  intros H. injection H as <-. eauto.
Qed.

(** Probing under [os1] then [os2] answers what a snapshot under [os2]
    reports, provided the constructor returned under [os1]. *)
Lemma probe_second_update (c : Class) (h : Host) (os1 os2 : OS) (o : Object) :
  __init__ c h os1 = Ret o ->
  probe c h os1 os2 = snapshot_available c h os2.
Proof.
  intros Ho. unfold probe, snapshot_available. rewrite Ho.
  assert (Hpid : pid o = pid (fresh h)).
  { apply (init_preserved pid c h os1 o);
      [apply update_preserves_pid | reflexivity | exact Ho]. }
  rewrite (update_outcome_pid c h os2 o (fresh h) Hpid).
  unfold __init__.
  destruct (update c h os2 (fresh h)) as [s [b | e]]; reflexivity.
Qed.

Lemma probe_same_os (c : Class) (h : Host) (os : OS) :
  probe c h os os = snapshot_available c h os.
Proof.
  destruct (__init__ c h os) as [o | e] eqn:Ho.
  - exact (probe_second_update c h os os o Ho).
  - unfold probe, snapshot_available. rewrite Ho. reflexivity.
Qed.

Example is_available_ps :
  is_available (mk_Globals _ProcessMemoryInfoPS) host_posix
               (os_ps "  1024  2048" 0) (os_ps "  1024  2048" 0)
  = (mk_Globals _ProcessMemoryInfoPS, Ret true).
Proof. reflexivity. Qed.

Example is_available_base :
  is_available (mk_Globals _ProcessMemoryInfo) host_posix os_nothing os_nothing
  = (mk_Globals _ProcessMemoryInfo, Ret false).
Proof. reflexivity. Qed.

(** C7.  With the operating system answering the same to both calls of
    [update] that it makes, [is_available()] yields what constructing a
    snapshot of the bound class and reading its [available] attribute
    yields (the same boolean, or the same exception), and the binding of
    [ProcessMemoryInfo] after the call is the one before.  Hence a second
    call in a row, with the same answers, yields the same again.  More
    generally the value is that of the second [update]: if the
    constructor returns under [os1], the call answers what a snapshot
    taken under [os2] reports. *)
Theorem is_available_snapshot (g : Globals) (h : Host) (os : OS) :
  is_available g h os os = (g, snapshot_available (ProcessMemoryInfo g) h os) /\
  fst (is_available g h os os) = g /\
  is_available (fst (is_available g h os os)) h os os = is_available g h os os /\
  (forall os1 o,
      __init__ (ProcessMemoryInfo g) h os1 = Ret o ->
      is_available g h os1 os
      = (g, snapshot_available (ProcessMemoryInfo g) h os)).
Proof.
  unfold is_available. simpl.
  split; [| split; [| split]].
  - rewrite probe_same_os. reflexivity.
  - reflexivity.
  - reflexivity.
  - intros os1 o Ho. rewrite (probe_second_update _ h os1 os o Ho). reflexivity.
Qed.

(* ------------------------------------------------------------------ *)
(** ** C2: the selection made when the module is imported              *)
(* ------------------------------------------------------------------ *)

Example import_posix_proc :
  import_module host_posix os_always_proc
  = Ret (mk_Globals _ProcessMemoryInfoProc).
Proof. reflexivity. Qed.

Example import_posix_ps :
  import_module host_posix os_always_ps
  = Ret (mk_Globals _ProcessMemoryInfoPS).
Proof. reflexivity. Qed.

Example import_posix_resource :
  import_module host_posix (fun _ => os_rusage_500)
  = Ret (mk_Globals _ProcessMemoryInfoResource).
Proof. reflexivity. Qed.

Example import_posix_nothing :
  import_module host_posix (fun _ => os_nothing)
  = Ret (mk_Globals _ProcessMemoryInfo).
Proof. reflexivity. Qed.

Example import_windows :
  import_module host_windows (fun _ => os_nothing)
  = Ret (mk_Globals _ProcessMemoryInfoWin32).
Proof. reflexivity. Qed.

Example import_posix_bad_ps :
  import_module host_posix (fun _ => os_ps ("  RSS    VSZ" ++ LF) 0)
  = Raise ValueError.
Proof. reflexivity. Qed.

(** C2, counterexample.  On a host where neither [resource] nor pywin32
    imports but [/proc/self/stat] and [/proc/self/status] are readable
    and well formed, probing the filesystem class would succeed
    ([_ProcessMemoryInfoProc().update()] is [True]); the import however
    goes straight to the [except ImportError] branch, runs no probe and
    leaves [ProcessMemoryInfo] bound to the base class.  So the bound
    class is not always the first of filesystem, ps, resource whose probe
    succeeds. *)
Lemma C2_no_resource_skips_probes :
  probe _ProcessMemoryInfoProc host_bare (os_always_proc 0%nat) (os_always_proc 1%nat)
  = Ret true
  /\ import_module host_bare os_always_proc = Ret (mk_Globals _ProcessMemoryInfo)
  /\ ~ (forall h os g,
          import_module h os = Ret g ->
          probe _ProcessMemoryInfoProc h (os 0%nat) (os 1%nat) = Ret true ->
          ProcessMemoryInfo g = _ProcessMemoryInfoProc).
Proof.
  split; [reflexivity |]. split; [reflexivity |].
  intros H.
  specialize (H host_bare os_always_proc (mk_Globals _ProcessMemoryInfo)
                eq_refl eq_refl).
  discriminate H.
Qed.

(** C2, as amended.  The import binds [ProcessMemoryInfo] once.
    - On a host where [resource] imports, the filesystem, ps and resource
      classes are probed in this order ([c().update()], two calls of
      [update] each); the first whose probe returns [True] is bound and
      the later ones are not consulted; if all three return [False] the
      base class stays bound; an exception raised by a probe ends the
      import with that exception.
    - On a host where [resource] does not import, no probe is run: the
      Win32 class is bound when pywin32 imports, the base class stays
      bound otherwise.
    - The Win32 class is bound only on a host where [resource] does not
      import.
    - [update] of the base class returns [False] and leaves [self] as it
      was. *)
Theorem import_module_selection (h : Host) (os : nat -> OS) :
  (forall pagesize,
      resource h = Some pagesize ->
      (probe _ProcessMemoryInfoProc h (os 0%nat) (os 1%nat) = Ret true ->
       import_module h os = Ret (mk_Globals _ProcessMemoryInfoProc)) /\
      (probe _ProcessMemoryInfoProc h (os 0%nat) (os 1%nat) = Ret false ->
       probe _ProcessMemoryInfoPS h (os 2%nat) (os 3%nat) = Ret true ->
       import_module h os = Ret (mk_Globals _ProcessMemoryInfoPS)) /\
      (probe _ProcessMemoryInfoProc h (os 0%nat) (os 1%nat) = Ret false ->
       probe _ProcessMemoryInfoPS h (os 2%nat) (os 3%nat) = Ret false ->
       probe _ProcessMemoryInfoResource h (os 4%nat) (os 5%nat) = Ret true ->
       import_module h os = Ret (mk_Globals _ProcessMemoryInfoResource)) /\
      (probe _ProcessMemoryInfoProc h (os 0%nat) (os 1%nat) = Ret false ->
       probe _ProcessMemoryInfoPS h (os 2%nat) (os 3%nat) = Ret false ->
       probe _ProcessMemoryInfoResource h (os 4%nat) (os 5%nat) = Ret false ->
       import_module h os = Ret (mk_Globals _ProcessMemoryInfo)) /\
      (forall e,
          probe _ProcessMemoryInfoProc h (os 0%nat) (os 1%nat) = Raise e ->
          import_module h os = Raise e) /\
      (forall e,
          probe _ProcessMemoryInfoProc h (os 0%nat) (os 1%nat) = Ret false ->
          probe _ProcessMemoryInfoPS h (os 2%nat) (os 3%nat) = Raise e ->
          import_module h os = Raise e) /\
      (forall e,
          probe _ProcessMemoryInfoProc h (os 0%nat) (os 1%nat) = Ret false ->
          probe _ProcessMemoryInfoPS h (os 2%nat) (os 3%nat) = Ret false ->
          probe _ProcessMemoryInfoResource h (os 4%nat) (os 5%nat) = Raise e ->
          import_module h os = Raise e)) /\
  (resource h = None ->
   import_module h os
   = Ret (mk_Globals (if win32 h then _ProcessMemoryInfoWin32
                      else _ProcessMemoryInfo))) /\
  (forall g,
      import_module h os = Ret g ->
      ProcessMemoryInfo g = _ProcessMemoryInfoWin32 ->
      resource h = None /\ win32 h = true) /\
  (forall os' self,
      update _ProcessMemoryInfo h os' self = (self, Ret false)).
Proof.
  split; [| split; [| split]].
  - intros pagesize Hres. unfold import_module. rewrite Hres.
    repeat split.
    + intros ->. reflexivity.
    + intros -> ->. reflexivity.
    + intros -> -> ->. reflexivity.
    + intros -> -> ->. reflexivity.
    + intros e ->. reflexivity.
    + intros e -> ->. reflexivity.
    + intros e -> -> ->. reflexivity.
  - intros Hres. unfold import_module. rewrite Hres.
    destruct (win32 h); reflexivity.
  - intros g. unfold import_module.
    destruct (resource h) as [pagesize |].
    + destruct (probe _ProcessMemoryInfoProc h (os 0%nat) (os 1%nat)) as [[|] | e];
        [intros H; injection H as <-; discriminate | | discriminate].
      destruct (probe _ProcessMemoryInfoPS h (os 2%nat) (os 3%nat)) as [[|] | e];
        [intros H; injection H as <-; discriminate | | discriminate].
      destruct (probe _ProcessMemoryInfoResource h (os 4%nat) (os 5%nat)) as [[|] | e];
        [intros H; injection H as <-; discriminate
        | intros H; injection H as <-; discriminate
        | discriminate].
    + destruct (win32 h).
      * auto.
      * intros H; injection H as <-; discriminate.
  - intros os' self. reflexivity.
Qed.

(* ------------------------------------------------------------------ *)
(** ** The thread census: [ThreadInfo], [get_current_threads]          *)
(* ------------------------------------------------------------------ *)

Example census_sample :
  get_current_threads sample_threading
  = Ret [ mk_ThreadInfo (Some 100) "MainThread" false;
          mk_ThreadInfo (Some 101) "worker-1" true;
          mk_ThreadInfo (Some 102) "worker-2" true ].
Proof. reflexivity. Qed.

Example census_legacy :
  get_current_threads legacy_threading = get_current_threads sample_threading.
Proof. reflexivity. Qed.

Example census_unregistered :
  ThreadInfo_init (mk_Threading [] []) (legacy_thread 7 "t" false)
  = Ret (mk_ThreadInfo (Some 0) "t" false).
Proof. reflexivity. Qed.

(** The scan returns what it was entered with when no registered object
    is the thread. *)
Lemma scan_active_absent (items : list (Z * Thread)) (thread : Thread)
      (cur : option Z) :
  forallb (fun p => negb (is_ (snd p) thread)) items = true ->
  scan_active items thread cur = cur.
Proof.
  induction items as [| [tid a] items IH]; simpl; intros H.
  - reflexivity.
  - apply andb_true_iff in H as [Ha Hrest].
    apply negb_true_iff in Ha. rewrite Ha. exact (IH Hrest).
Qed.

(** The scan stops at the first registered object that is the thread. *)
Lemma scan_active_first (pre post : list (Z * Thread)) (tid : Z)
      (a thread : Thread) (cur : option Z) :
  forallb (fun p => negb (is_ (snd p) thread)) pre = true ->
  is_ a thread = true ->
  scan_active (pre ++ (tid, a) :: post) thread cur = Some tid.
Proof.
  induction pre as [| [tid' a'] pre IH]; simpl; intros Hpre Ha.
  - rewrite Ha. reflexivity.
  - apply andb_true_iff in Hpre as [Ha' Hrest].
    apply negb_true_iff in Ha'. rewrite Ha'. exact (IH Hrest Ha).
Qed.

(** In a registry whose objects are pairwise distinct, the scan finds the
    key under which the thread is registered. *)
Lemma scan_active_registered (items : list (Z * Thread)) (tid : Z)
      (thread : Thread) (cur : option Z) :
  NoDup (map (fun p => thread_id (snd p)) items) ->
  In (tid, thread) items ->
  scan_active items thread cur = Some tid.
Proof.
  induction items as [| [tid' a'] items IH]; simpl; intros Hnd Hin.
  - contradiction.
  - inversion Hnd as [| x xs Hnotin Hnd']; subst.
    destruct Hin as [Heq | Hin].
    + injection Heq as -> ->. unfold is_. rewrite Nat.eqb_refl. reflexivity.
    + destruct (is_ a' thread) eqn:Ha.
      * exfalso. apply Hnotin. unfold is_ in Ha. apply Nat.eqb_eq in Ha.
        rewrite Ha.
        exact (in_map (fun p => thread_id (snd p)) items (tid, thread) Hin).
      * exact (IH Hnd' Hin).
Qed.

(** How [ThreadInfo.__init__] resolves [ident].  For every thread object
    on which the constructor returns:
    - if the object has the attribute [ident], the record carries its
      value, whatever the registry holds;
    - if it has not and no object of [threading._active] is the thread,
      the record carries the default 0;
    - if it has not and the registry holds the thread, the record carries
      the key of the first entry whose object is the thread. *)
Theorem ThreadInfo_ident_resolution (th : Threading) (thread : Thread)
        (i : ThreadInfo) :
  ThreadInfo_init th thread = Ret i ->
  (forall v, attr_ident thread = Some v -> ident i = v) /\
  (attr_ident thread = None ->
   forallb (fun p => negb (is_ (snd p) thread)) (_active th) = true ->
   ident i = Some 0) /\
  (forall pre tid a post,
      attr_ident thread = None ->
      _active th = (pre ++ (tid, a) :: post)%list ->
      forallb (fun p => negb (is_ (snd p) thread)) pre = true ->
      is_ a thread = true ->
      ident i = Some tid).
Proof.
  unfold ThreadInfo_init. intros Hinit.
  assert (Hid : ident i =
                match attr_ident thread with
                | Some v => v
                | None => scan_active (_active th) thread (Some 0)
                end).
  { destruct (attr_name thread) as [n |]; [| destruct (meth_getName thread) as [n |]];
      try discriminate;
      (destruct (attr_daemon thread) as [d |];
       [| destruct (meth_isDaemon thread) as [d |]]);
      try discriminate; injection Hinit as <-; reflexivity. }
  rewrite Hid. split; [| split].
  - intros v ->. reflexivity.
  - intros -> Habs. apply scan_active_absent. exact Habs.
  - intros pre tid a post -> -> Hpre Ha. apply scan_active_first; assumption.
Qed.

(** A Python 2.5 thread, unregistered: the identifier is the default. *)
Lemma ThreadInfo_ident_resolution_witness :
  ident (mk_ThreadInfo (Some 0) "t" false) = Some 0.
Proof.
  exact (proj1 (proj2 (ThreadInfo_ident_resolution
                         (mk_Threading [] []) (legacy_thread 7 "t" false)
                         (mk_ThreadInfo (Some 0) "t" false) eq_refl))
               eq_refl eq_refl).
Defined.

(** The older accessors give the same record as the properties.  Let a
    thread object have none of the attributes [ident], [name], [daemon],
    let [getName()] answer [n] and [isDaemon()] answer [d], and let it be
    registered under [tid] in a [threading._active] whose objects are
    pairwise distinct.  Then [ThreadInfo] of it is the record
    ([tid], [n], [d]): what the constructor makes of an object whose
    properties have these values. *)
Theorem ThreadInfo_legacy_agrees (th : Threading) (thread modern : Thread)
        (tid : Z) (n : string) (d : bool) :
  attr_ident thread = None ->
  attr_name thread = None ->
  attr_daemon thread = None ->
  meth_getName thread = Some n ->
  meth_isDaemon thread = Some d ->
  In (tid, thread) (_active th) ->
  NoDup (map (fun p => thread_id (snd p)) (_active th)) ->
  attr_ident modern = Some (Some tid) ->
  attr_name modern = Some n ->
  attr_daemon modern = Some d ->
  ThreadInfo_init th thread = Ret (mk_ThreadInfo (Some tid) n d) /\
  ThreadInfo_init th modern = ThreadInfo_init th thread.
Proof.
  intros Hi Hn Hd Hgn Hgd Hin Hnd Mi Mn Md.
  unfold ThreadInfo_init.
  rewrite Hi, Hn, Hd, Hgn, Hgd, Mi, Mn, Md.
  rewrite (scan_active_registered (_active th) tid thread (Some 0) Hnd Hin).
  split; reflexivity.
Qed.

Lemma ThreadInfo_legacy_agrees_witness :
  ThreadInfo_init legacy_threading (legacy_thread 1 "worker-1" true)
  = Ret (mk_ThreadInfo (Some 101) "worker-1" true).
Proof.
  refine (proj1 (ThreadInfo_legacy_agrees
                   legacy_threading (legacy_thread 1 "worker-1" true)
                   (sample_thread 1 101 "worker-1" true) 101 "worker-1" true
                   eq_refl eq_refl eq_refl eq_refl eq_refl _ _
                   eq_refl eq_refl eq_refl)).
  - simpl. right. left. reflexivity.
  - simpl. repeat constructor; simpl; intuition discriminate.
Defined.

Lemma ThreadInfo_init_accessors (th : Threading) (thread : Thread) :
  if has_accessors thread
  then exists i, ThreadInfo_init th thread = Ret i
  else ThreadInfo_init th thread = Raise AttributeError.
Proof.
  unfold has_accessors, ThreadInfo_init.
  destruct (attr_name thread), (meth_getName thread),
           (attr_daemon thread), (meth_isDaemon thread);
    simpl; eauto.
Qed.

Lemma comprehension_ok (th : Threading) (l : list Thread) :
  forallb has_accessors l = true ->
  exists r, comprehension th l = Ret r /\
            Forall2 (fun thread i => ThreadInfo_init th thread = Ret i) l r.
Proof.
  induction l as [| thread l IH]; simpl; intros H.
  - exists []. split; [reflexivity | constructor].
  - apply andb_true_iff in H as [Ht Hl].
    pose proof (ThreadInfo_init_accessors th thread) as Hi.
    rewrite Ht in Hi. destruct Hi as [i Hi].
    destruct (IH Hl) as (r & Hr & Hall).
    exists (i :: r). rewrite Hi, Hr. split; [reflexivity |].
    constructor; assumption.
Qed.

Lemma comprehension_raises (th : Threading) (l : list Thread) :
  forallb has_accessors l = false ->
  comprehension th l = Raise AttributeError.
Proof.
  induction l as [| thread l IH]; simpl; intros H.
  - discriminate.
  - pose proof (ThreadInfo_init_accessors th thread) as Hi.
    destruct (has_accessors thread).
    + destruct Hi as [i Hi]. rewrite Hi, (IH H). reflexivity.
    + rewrite Hi. reflexivity.
Qed.

(** [get_current_threads()] is all or nothing.  If every enumerated
    thread answers for its name and its daemon flag (by property or by
    method), the call returns one [ThreadInfo] per thread, in the order of
    [threading.enumerate()], each being what the constructor makes of
    that thread.  If one thread answers for neither form of its name or of
    its daemon flag, the call raises [AttributeError] and returns no
    record at all, whatever the other threads are. *)
Theorem get_current_threads_all_or_nothing (th : Threading) :
  (forallb has_accessors (enumerate th) = true ->
   exists r,
     get_current_threads th = Ret r /\
     List.length r = List.length (enumerate th) /\
     Forall2 (fun thread i => ThreadInfo_init th thread = Ret i)
             (enumerate th) r) /\
  (forallb has_accessors (enumerate th) = false ->
   get_current_threads th = Raise AttributeError).
Proof.
  unfold get_current_threads. split.
  - intros H. destruct (comprehension_ok th (enumerate th) H) as (r & Hr & Hall).
    exists r. split; [exact Hr |]. split; [| exact Hall].
    symmetry. exact (Forall2_length Hall).
  - apply comprehension_raises.
Qed.

Example census_one_bad_thread :
  get_current_threads
    (mk_Threading []
       [ sample_thread 0 100 "MainThread" false;
         mk_Thread 1 (Some (Some 101)) None None (Some true) (Some true) ])
  = Raise AttributeError.
Proof. reflexivity. Qed.

(* ------------------------------------------------------------------ *)
(** ** Which exceptions leave [update] and the import                  *)
(* ------------------------------------------------------------------ *)

Section RaisesOnly.

Context (P : exn -> Prop).

Lemma raises_only_ret {A : Type} (a : A) : raises_only P (ret a).
Proof. intros s s' e H. discriminate H. Qed.

Lemma raises_only_assign (f : Object -> Object) : raises_only P (assign f).
Proof. intros s s' e H. discriminate H. Qed.

Lemma raises_only_raise {A : Type} (e : exn) : P e -> raises_only P (@raise A e).
Proof. intros He s s' e' H. injection H as _ <-. exact He. Qed.

Lemma raises_only_orraise {A : Type} (e : exn) (o : option A) :
  P e -> raises_only P (orraise e o).
Proof.
  intros He. destruct o; [apply raises_only_ret | apply raises_only_raise, He].
Qed.

Lemma raises_only_bind {A B : Type} (m : M A) (k : A -> M B) :
  raises_only P m -> (forall a, raises_only P (k a)) -> raises_only P (bind m k).
Proof.
  intros Hm Hk s s' e. unfold bind.
  destruct (m s) as [s1 [a | e1]] eqn:Em.
  - apply Hk.
  - intros H. injection H as _ <-. exact (Hm s s1 e1 Em).
Qed.

Lemma raises_only_for_each {A : Type} (l : list A) (body : A -> M unit) :
  (forall x, raises_only P (body x)) -> raises_only P (for_each l body).
Proof.
  intros Hbody. induction l as [| x l IH]; simpl.
  - apply raises_only_ret.
  - apply raises_only_bind; auto.
Qed.

Lemma raises_only_if {A : Type} (b : bool) (m1 m2 : M A) :
  raises_only P m1 -> raises_only P m2 -> raises_only P (if b then m1 else m2).
Proof. destruct b; auto. Qed.

End RaisesOnly.

Lemma status_entry_raises (entry : string) :
  raises_only (fun e => e = ValueError \/ e = IndexError) (status_entry entry).
Proof.
  unfold status_entry, size_in_bytes.
  destruct (split_on ":" entry) as [| key [| value [| x rest]]];
    try (apply raises_only_raise; auto).
  apply raises_only_bind.
  - repeat (apply raises_only_if);
      repeat first
        [ apply raises_only_ret | apply raises_only_assign
        | apply raises_only_orraise; auto
        | apply raises_only_bind; [| intro] ].
  - intros _. apply raises_only_if; [| apply raises_only_ret].
    destruct (dict_get key_map key);
      [apply raises_only_assign | apply raises_only_ret].
Qed.

Lemma update_Proc_raises (pagesize : Z) (os : OS) :
  raises_only (fun e => e = ValueError \/ e = IndexError) (update_Proc pagesize os).
Proof.
  unfold update_Proc.
  destruct (proc_self_stat os) as [stat |]; [| apply raises_only_ret].
  destruct (proc_self_status os) as [status |]; [| apply raises_only_ret].
  cbv zeta.
  repeat first
    [ apply raises_only_ret | apply raises_only_assign
    | apply raises_only_orraise; auto
    | apply raises_only_for_each; intro; apply status_entry_raises
    | apply raises_only_bind; [| intro] ].
Qed.

(** With two items or more, the index [-1] is in range. *)
Lemma getitem_last_some {A : Type} (l : list A) :
  (2 <= List.length l)%nat -> getitem l (-1) <> None /\ getitem l (-2) <> None.
Proof.
  intros Hlen.
  change (-2) with (- Z.of_nat 2). change (-1) with (- Z.of_nat 1).
  rewrite !getitem_neg by lia.
  split; intros H; apply nth_error_None in H; lia.
Qed.

Lemma update_PS_raises (os : OS) :
  raises_only (fun e => e = ValueError) (update_PS os).
Proof.
  intros s s' e. rewrite update_PS_unfold.
  destruct (Popen os _) as [[out returncode] |]; [| discriminate].
  cbv zeta.
  destruct ((returncode =? 0) && _) eqn:Hguard; [| discriminate].
  apply andb_true_iff in Hguard as [_ Hlen]. apply Z.leb_le in Hlen.
  destruct (getitem_last_some (split isspace_bytes out)) as [H1 H2]; [lia |].
  destruct (getitem _ (-1)) as [tv |]; [| contradiction].
  destruct (int isspace_bytes tv) as [v |]; [| intros H; injection H as _ <-; reflexivity].
  destruct (getitem _ (-2)) as [tr |]; [| contradiction].
  destruct (int isspace_bytes tr) as [r |]; [discriminate |].
  intros H; injection H as _ <-; reflexivity.
Qed.

(** What [update] can raise, class by class. *)
Lemma update_raises (c : Class) (h : Host) (os : OS) (s s' : Object) (e : exn) :
  update c h os s = (s', Raise e) ->
  match c with
  | _ProcessMemoryInfo => False
  | _ProcessMemoryInfoPS => e = ValueError
  | _ProcessMemoryInfoProc => e = ValueError \/ e = IndexError
  | _ProcessMemoryInfoResource => resource h = None /\ e = NameError
  | _ProcessMemoryInfoWin32 => win32 h = false /\ e = NameError
  end.
Proof.
  destruct c; simpl.
  - discriminate.
  - apply update_PS_raises.
  - apply update_Proc_raises.
  - destruct (resource h).
    + rewrite update_Resource_eq. discriminate.
    + intros H. injection H as _ <-. auto.
  - destruct (win32 h).
    + rewrite update_Win32_eq. discriminate.
    + intros H. injection H as _ <-. auto.
Qed.

(** An exception of a probe is an exception of one of its two updates. *)
Lemma probe_raises (c : Class) (h : Host) (os1 os2 : OS) (e : exn) :
  probe c h os1 os2 = Raise e ->
  exists os s s', update c h os s = (s', Raise e).
Proof.
  unfold probe, __init__.
  destruct (update c h os1 (fresh h)) as [s1 [b | e1]] eqn:E1.
  - destruct (update c h os2 (set_available b s1)) as [s2 [b2 | e2]] eqn:E2;
      simpl; [discriminate |].
    intros H. injection H as <-. eauto.
  - intros H. injection H as <-. eauto.
Qed.

(** What the import has bound tells which modules the host has. *)
Lemma import_bound_inv (h : Host) (os : nat -> OS) (g : Globals) :
  import_module h os = Ret g ->
  match ProcessMemoryInfo g with
  | _ProcessMemoryInfo => True
  | _ProcessMemoryInfoPS => resource h <> None
  | _ProcessMemoryInfoProc => resource h <> None
  | _ProcessMemoryInfoResource => resource h <> None
  | _ProcessMemoryInfoWin32 => resource h = None /\ win32 h = true
  end.
Proof.
  unfold import_module.
  destruct (resource h) as [pagesize |].
  - destruct (probe _ProcessMemoryInfoProc h (os 0%nat) (os 1%nat)) as [[|] | e];
      [intros H; injection H as <-; simpl; discriminate | | discriminate].
    destruct (probe _ProcessMemoryInfoPS h (os 2%nat) (os 3%nat)) as [[|] | e];
      [intros H; injection H as <-; simpl; discriminate | | discriminate].
    destruct (probe _ProcessMemoryInfoResource h (os 4%nat) (os 5%nat)) as [[|] | e];
      [intros H; injection H as <-; simpl; discriminate
      | intros H; injection H as <-; exact I
      | discriminate].
  - destruct (win32 h) eqn:Hw.
    + intros H; injection H as <-. simpl. auto.
    + intros H; injection H as <-. exact I.
Qed.

(** A class that the import has bound never meets an unbound name: on
    every later call, under any answers of the operating system and from
    any state of [self], its [update] raises nothing but [ValueError]
    (the ps and filesystem classes, from [int]) or [IndexError] (the
    filesystem class, from a short stat text); the base, resource and
    Win32 classes never raise. *)
Theorem bound_update_raises (h : Host) (os0 : nat -> OS) (g : Globals)
        (os : OS) (self self' : Object) (e : exn) :
  import_module h os0 = Ret g ->
  update (ProcessMemoryInfo g) h os self = (self', Raise e) ->
  (ProcessMemoryInfo g = _ProcessMemoryInfoPS /\ e = ValueError) \/
  (ProcessMemoryInfo g = _ProcessMemoryInfoProc /\
   (e = ValueError \/ e = IndexError)).
Proof.
  intros Himp Hupd.
  apply import_bound_inv in Himp.
  apply update_raises in Hupd.
  destruct (ProcessMemoryInfo g).
  - contradiction.
  - left. auto.
  - right. auto.
  - destruct Hupd as [Hres _]. contradiction.
  - destruct Himp as [_ Hw], Hupd as [Hw' _]. congruence.
Qed.

(** The ps class was bound; later the child prints only a header. *)
Lemma bound_update_raises_witness :
  (_ProcessMemoryInfoPS = _ProcessMemoryInfoPS /\ ValueError = ValueError) \/
  (_ProcessMemoryInfoPS = _ProcessMemoryInfoProc /\
   (ValueError = ValueError \/ ValueError = IndexError)).
Proof.
  exact (bound_update_raises host_posix os_always_ps
           (mk_Globals _ProcessMemoryInfoPS)
           (os_ps ("  RSS    VSZ" ++ LF) 0)
           (fresh host_posix) (fresh host_posix) ValueError
           eq_refl eq_refl).
Defined.

(** The import of the module can fail only on a host where [resource]
    imports, and only with a [ValueError] or an [IndexError] raised while
    probing the filesystem or ps class; where [resource] does not import
    it always completes. *)
Theorem import_module_raises (h : Host) (os : nat -> OS) (e : exn) :
  import_module h os = Raise e ->
  resource h <> None /\ (e = ValueError \/ e = IndexError).
Proof.
  unfold import_module.
  destruct (resource h) as [pagesize |] eqn:Hres.
  - intros H. split; [discriminate |].
    destruct (probe _ProcessMemoryInfoProc h (os 0%nat) (os 1%nat))
      as [[|] | e1] eqn:E1; [discriminate | |].
    + destruct (probe _ProcessMemoryInfoPS h (os 2%nat) (os 3%nat))
        as [[|] | e2] eqn:E2; [discriminate | |].
      * destruct (probe _ProcessMemoryInfoResource h (os 4%nat) (os 5%nat))
          as [[|] | e3] eqn:E3; [discriminate | discriminate |].
        injection H as <-.
        apply probe_raises in E3 as (o & s & s' & Hu).
        apply update_raises in Hu. destruct Hu as [Hnone _]. congruence.
      * injection H as <-.
        apply probe_raises in E2 as (o & s & s' & Hu).
        apply update_raises in Hu. auto.
    + injection H as <-.
      apply probe_raises in E1 as (o & s & s' & Hu).
      apply update_raises in Hu. exact Hu.
  - destruct (win32 h); discriminate.
Qed.

Lemma import_module_raises_witness :
  resource host_posix <> None /\ (ValueError = ValueError \/ ValueError = IndexError).
Proof.
  exact (import_module_raises host_posix
           (fun _ => os_ps ("  RSS    VSZ" ++ LF) 0) ValueError eq_refl).
Defined.

(* ------------------------------------------------------------------ *)
(** ** The import and [is_available] together                          *)
(* ------------------------------------------------------------------ *)

Lemma probe_Win32_true (h : Host) (os1 os2 : OS) :
  win32 h = true -> probe _ProcessMemoryInfoWin32 h os1 os2 = Ret true.
Proof.
  intros Hw. unfold probe, __init__. cbn [update]. rewrite Hw.
  rewrite !update_Win32_eq. reflexivity.
Qed.

(** With the operating system answering the same throughout, once the
    import has completed [is_available()] returns [True] exactly when
    the import bound one of the four platform classes, and [False] when
    it left the base class bound; it does not raise. *)
Theorem import_then_is_available (h : Host) (os : OS) (g : Globals) :
  import_module h (fun _ => os) = Ret g ->
  is_available g h os os = (g, Ret (negb (is_base (ProcessMemoryInfo g)))).
Proof.
  unfold import_module, is_available.
  destruct (resource h) as [pagesize |].
  - destruct (probe _ProcessMemoryInfoProc h os os) as [[|] | e] eqn:E1;
      [intros H; injection H as <-; simpl; rewrite E1; reflexivity
      | | discriminate].
    destruct (probe _ProcessMemoryInfoPS h os os) as [[|] | e] eqn:E2;
      [intros H; injection H as <-; simpl; rewrite E2; reflexivity
      | | discriminate].
    destruct (probe _ProcessMemoryInfoResource h os os) as [[|] | e] eqn:E3;
      [intros H; injection H as <-; simpl; rewrite E3; reflexivity
      | intros H; injection H as <-; reflexivity
      | discriminate].
  - destruct (win32 h) eqn:Hw.
    + intros H; injection H as <-. simpl.
      rewrite (probe_Win32_true h os os Hw). reflexivity.
    + intros H; injection H as <-. reflexivity.
Qed.

Lemma import_then_is_available_witness :
  is_available (mk_Globals _ProcessMemoryInfoPS) host_posix
               (os_ps "  1024  2048" 0) (os_ps "  1024  2048" 0)
  = (mk_Globals _ProcessMemoryInfoPS, Ret true).
Proof.
  exact (import_then_is_available host_posix (os_ps "  1024  2048" 0)
           (mk_Globals _ProcessMemoryInfoPS) eq_refl).
Defined.

(* ------------------------------------------------------------------ *)
(** ** Attributes a class never fills in                               *)
(* ------------------------------------------------------------------ *)

Lemma update_preserves_os_specific (c : Class) (h : Host) (os : OS) :
  c <> _ProcessMemoryInfoProc -> preserves os_specific (update c h os).
Proof.
  intros Hc. destruct c; simpl.
  - apply preserves_ret.
  - intro self. rewrite update_PS_unfold.
    destruct (Popen os _) as [[out returncode] |]; [| reflexivity].
    cbv zeta.
    destruct ((returncode =? 0) && _); [| reflexivity].
    destruct (getitem _ (-1)) as [tv |]; [| reflexivity].
    destruct (int isspace_bytes tv) as [v |]; [| reflexivity].
    destruct (getitem _ (-2)) as [tr |]; [| reflexivity].
    destruct (int isspace_bytes tr) as [r |]; reflexivity.
  - contradiction.
  - destruct (resource h); [| apply preserves_raise].
    intro self. rewrite update_Resource_eq. reflexivity.
  - destruct (win32 h); [| apply preserves_raise].
    intro self. rewrite update_Win32_eq. reflexivity.
Qed.

Lemma update_PS_preserves_pagefaults (os : OS) :
  preserves pagefaults (update_PS os).
Proof.
  intro self. rewrite update_PS_unfold.
  destruct (Popen os _) as [[out returncode] |]; [| reflexivity].
  cbv zeta.
  destruct ((returncode =? 0) && _); [| reflexivity].
  destruct (getitem _ (-1)) as [tv |]; [| reflexivity].
  destruct (int isspace_bytes tv) as [v |]; [| reflexivity].
  destruct (getitem _ (-2)) as [tr |]; [| reflexivity].
  destruct (int isspace_bytes tr) as [r |]; reflexivity.
Qed.

Lemma update_Resource_preserves_code_segment (h : Host) (os : OS) :
  preserves code_segment (update _ProcessMemoryInfoResource h os).
Proof.
  simpl. destruct (resource h); [| apply preserves_raise].
  intro self. rewrite update_Resource_eq. reflexivity.
Qed.

(** What a snapshot never carries.  In every instance that a constructor
    returns: [os_specific] is empty unless the class is the filesystem
    class; the ps class leaves [pagefaults] at 0; the resource class
    leaves [code_segment] at 0; and [available] is set, to what [update]
    answered, so that reading it does not raise. *)
Theorem snapshot_unfilled_attributes (c : Class) (h : Host) (os : OS)
        (o : Object) :
  __init__ c h os = Ret o ->
  (c <> _ProcessMemoryInfoProc -> os_specific o = []) /\
  (c = _ProcessMemoryInfoPS -> pagefaults o = 0) /\
  (c = _ProcessMemoryInfoResource -> code_segment o = 0) /\
  (exists b, available o = Some b /\ get_available o = Ret b /\
             snd (update c h os (fresh h)) = Ret b).
Proof.
  intros Ho. split; [| split; [| split]].
  - intros Hc.
    apply (init_preserved os_specific c h os o) in Ho;
      [exact Ho | apply update_preserves_os_specific, Hc | reflexivity].
  - intros ->.
    apply (init_preserved pagefaults _ h os o) in Ho;
      [exact Ho | apply update_PS_preserves_pagefaults | reflexivity].
  - intros ->.
    apply (init_preserved code_segment _ h os o) in Ho;
      [exact Ho | apply update_Resource_preserves_code_segment | reflexivity].
  - apply init_inv in Ho as (s & b & Hu & ->).
    exists b. rewrite Hu. repeat split.
Qed.

Lemma snapshot_unfilled_attributes_witness :
  pagefaults (set_available true
                (set_rss (1024 * 1024) (set_vsz (2048 * 1024) (fresh host_posix))))
  = 0.
Proof.
  exact (proj1 (proj2 (snapshot_unfilled_attributes
                         _ProcessMemoryInfoPS host_posix (os_ps "  1024  2048" 0)
                         (set_available true
                            (set_rss (1024 * 1024)
                               (set_vsz (2048 * 1024) (fresh host_posix))))
                         eq_refl))
               eq_refl).
Defined.

(* ------------------------------------------------------------------ *)
(** ** More on the filesystem strategy                                 *)
(* ------------------------------------------------------------------ *)

(** A non-negative index at or past the end is out of range. *)
Lemma getitem_past_end {A : Type} (l : list A) (n : nat) :
  (List.length l <= n)%nat -> getitem l (Z.of_nat n) = None.
Proof.
  intros H. unfold getitem. cbv zeta.
  assert (E1 : (Z.of_nat n <? 0) = false) by (apply Z.ltb_ge; lia).
  assert (E2 : (Z.of_nat (List.length l) <=? Z.of_nat n) = true)
    by (apply Z.leb_le; lia).
  rewrite E1. cbv iota. rewrite E1, E2. reflexivity.
Qed.

(** [vsz] and [rss] are assigned before anything else is read: once the
    23rd and 24th stat fields read as the integers [v] and [r], the
    instance has [vsz = v] and [rss = r * pagesize] when [update] ends,
    also when it ends by raising on the 12th field or on a status line.
    The page size is [resource.getpagesize()] where [resource] imports
    and 4096 where it does not. *)
Theorem Proc_update_vsz_rss_first (h : Host) (os : OS) (self : Object)
        (stat : string) (status : list string) (t23 t24 : string) (v r : Z) :
  proc_self_stat os = Some stat ->
  proc_self_status os = Some status ->
  getitem (split isspace_str stat) 22 = Some t23 ->
  int isspace_str t23 = Some v ->
  getitem (split isspace_str stat) 23 = Some t24 ->
  int isspace_str t24 = Some r ->
  vsz (fst (update _ProcessMemoryInfoProc h os self)) = v /\
  rss (fst (update _ProcessMemoryInfoProc h os self))
  = r * match resource h with Some pagesize => pagesize | None => 4096 end.
Proof.
  intros Hstat Hstatus H23 Hv H24 Hr.
  change (match resource h with Some pagesize => pagesize | None => 4096 end)
    with (_getpagesize h).
  assert (E : exists m : M bool,
             update _ProcessMemoryInfoProc h os self
             = m (set_rss (r * _getpagesize h) (set_vsz v self)) /\
             preserves (fun o => (vsz o, rss o)) m).
  { eexists. split.
    - cbn [update]. unfold update_Proc. rewrite Hstat, Hstatus. cbv zeta.
      rewrite H23, H24.
      unfold bind at 1. cbn [orraise ret].
      unfold bind at 1. rewrite Hv. cbn [orraise ret].
      unfold bind at 1. cbn [assign].
      unfold bind at 1. cbn [orraise ret].
      unfold bind at 1. rewrite Hr. cbn [orraise ret].
      unfold bind at 1. cbn [assign].
      reflexivity.
    - repeat first
        [ apply preserves_ret | apply preserves_orraise
        | apply preserves_for_each; intro; apply status_entry_preserves; reflexivity
        | apply preserves_bind; [| intro]
        | apply preserves_assign; intro; reflexivity ]. }
  destruct E as (m & -> & Hframe).
  specialize (Hframe (set_rss (r * _getpagesize h) (set_vsz v self))).
  cbv beta in Hframe. cbn [vsz rss set_rss set_vsz] in Hframe.
  injection Hframe as Hvsz Hrss.
  split; assumption.
Qed.

(** Fields 23 and 24 numeric, field 12 not, on a host without
    [resource]: [update] raises and the two sizes are set. *)
Lemma Proc_update_vsz_rss_first_witness :
  vsz (fst (update _ProcessMemoryInfoProc host_bare
              (os_proc "1 (sh) S 1 1 1 0 -1 0 0 0 x 0 0 0 0 0 20 0 1 0 100 5000 7" [])
              (fresh host_bare))) = 5000 /\
  rss (fst (update _ProcessMemoryInfoProc host_bare
              (os_proc "1 (sh) S 1 1 1 0 -1 0 0 0 x 0 0 0 0 0 20 0 1 0 100 5000 7" [])
              (fresh host_bare))) = 7 * 4096.
Proof.
  exact (Proc_update_vsz_rss_first host_bare
           (os_proc "1 (sh) S 1 1 1 0 -1 0 0 0 x 0 0 0 0 0 20 0 1 0 100 5000 7" [])
           (fresh host_bare)
           "1 (sh) S 1 1 1 0 -1 0 0 0 x 0 0 0 0 0 20 0 1 0 100 5000 7" []
           "5000" "7" 5000 7
           eq_refl eq_refl eq_refl eq_refl eq_refl eq_refl).
Defined.

Example Proc_update_bad_majflt :
  snd (update _ProcessMemoryInfoProc host_bare
         (os_proc "1 (sh) S 1 1 1 0 -1 0 0 0 x 0 0 0 0 0 20 0 1 0 100 5000 7" [])
         (fresh host_bare))
  = Raise ValueError.
Proof. reflexivity. Qed.

(** A stat text of fewer than 24 fields never lets [update] return: with
    22 fields or fewer it raises [IndexError] on [stats[22]] with [self]
    untouched; with exactly 23 fields, the 23rd numeric, it raises
    [IndexError] on [stats[23]] after [vsz] has been assigned. *)
Theorem Proc_update_few_fields (pagesize : Z) (os : OS) (self : Object)
        (stat : string) (status : list string) :
  proc_self_stat os = Some stat ->
  proc_self_status os = Some status ->
  (List.length (split isspace_str stat) < 24)%nat ->
  ((List.length (split isspace_str stat) <= 22)%nat ->
   update_Proc pagesize os self = (self, Raise IndexError)) /\
  (forall t23 v,
      getitem (split isspace_str stat) 22 = Some t23 ->
      int isspace_str t23 = Some v ->
      update_Proc pagesize os self = (set_vsz v self, Raise IndexError)) /\
  (exists self' e, update_Proc pagesize os self = (self', Raise e)).
Proof.
  intros Hstat Hstatus Hlen.
  assert (H23 : getitem (split isspace_str stat) 23 = None).
  { change 23 with (Z.of_nat 23). apply getitem_past_end. lia. }
  unfold update_Proc. rewrite Hstat, Hstatus. cbv zeta. rewrite H23.
  split; [| split].
  - intros Hle.
    assert (H22 : getitem (split isspace_str stat) 22 = None).
    { change 22 with (Z.of_nat 22). apply getitem_past_end. lia. }
    rewrite H22. reflexivity.
  - intros t23 v H22 Hv. rewrite H22.
    unfold bind at 1. cbn [orraise ret].
    unfold bind at 1. rewrite Hv. reflexivity.
  - destruct (getitem (split isspace_str stat) 22) as [t23 |].
    + unfold bind at 1. cbn [orraise ret].
      unfold bind at 1.
      destruct (int isspace_str t23) as [v |]; cbn [orraise ret raise].
      * eexists. eexists. reflexivity.
      * eexists. eexists. reflexivity.
    + eexists. eexists. reflexivity.
Qed.

Lemma Proc_update_few_fields_witness :
  update_Proc 4096 (os_proc "1 (sh) S" []) (fresh host_posix)
  = (fresh host_posix, Raise IndexError).
Proof.
  refine (proj1 (Proc_update_few_fields 4096 (os_proc "1 (sh) S" [])
                   (fresh host_posix) "1 (sh) S" [] eq_refl eq_refl _) _).
  - vm_compute. lia.
  - vm_compute. lia.
Defined.

(** *** The four segment attributes *)

Lemma seg_get_fold_append (g : Segment) (l : list (string * string)) (o : Object) :
  seg_get g (fold_left (fun o e => append_os_specific e o) l o) = seg_get g o.
Proof.
  revert o. induction l as [| e l IH]; intro o; simpl.
  - reflexivity.
  - rewrite IH. destruct g; reflexivity.
Qed.

(** [store_segment] assigns exactly the attribute that the key feeds. *)
Lemma store_segment_get (g : Segment) (key : string) (n : Z) (o : Object) :
  seg_get g (store_segment key n o)
  = if String.eqb key (seg_key g) then n else seg_get g o.
Proof.
  unfold store_segment.
  destruct (String.eqb_spec key "VmData") as [-> | H1];
    [destruct g; reflexivity |].
  destruct (String.eqb_spec key "VmExe") as [-> | H2];
    [destruct g; reflexivity |].
  destruct (String.eqb_spec key "VmLib") as [-> | H3];
    [destruct g; reflexivity |].
  destruct (String.eqb_spec key "VmStk") as [-> | H4];
    [destruct g; reflexivity |].
  destruct g; simpl;
    match goal with
    | |- _ = if String.eqb key ?k then _ else _ =>
        destruct (String.eqb_spec key k); [contradiction | reflexivity]
    end.
Qed.

Lemma segment_key_seg_key (g : Segment) : segment_key (seg_key g) = true.
Proof. destruct g; reflexivity. Qed.

(** A line with the key of [g] and a numeric value sets the attribute. *)
Lemma status_entry_seg (g : Segment) (entry value tok : string) (n : Z)
      (s : Object) :
  split_on ":" entry = [seg_key g; value] ->
  getitem (split isspace_str value) 0 = Some tok ->
  int isspace_str tok = Some n ->
  exists s', status_entry entry s = (s', Ret tt) /\ seg_get g s' = n * 1024.
Proof.
  intros Hentry Htok Hn.
  rewrite (status_entry_eq entry (seg_key g) value s Hentry).
  rewrite segment_key_seg_key, Htok, Hn.
  eexists. split; [reflexivity |].
  rewrite seg_get_fold_append, store_segment_get, String.eqb_refl. reflexivity.
Qed.

(** A line with another key leaves the attribute alone, also when it
    raises. *)
Lemma status_entry_keeps_seg (g : Segment) (entry : string) :
  has_key (seg_key g) entry = false ->
  preserves (seg_get g) (status_entry entry).
Proof.
  unfold has_key. intros Hk s.
  destruct (split_on ":" entry) as [| key [| value [| x rest]]] eqn:Hsplit;
    try (rewrite status_entry_bad_unpack; [reflexivity | rewrite Hsplit; simpl; lia]).
  rewrite (status_entry_eq entry key value s Hsplit).
  destruct (segment_key key).
  - destruct (getitem (split isspace_str value) 0) as [t |]; [| reflexivity].
    destruct (int isspace_str t) as [n |]; [| reflexivity].
    cbn [fst]. rewrite seg_get_fold_append, store_segment_get, Hk. reflexivity.
  - cbn [fst]. apply seg_get_fold_append.
Qed.

Lemma for_each_keeps_seg (g : Segment) (l : list string) :
  forallb (fun e => negb (has_key (seg_key g) e)) l = true ->
  preserves (seg_get g) (for_each l status_entry).
Proof.
  induction l as [| e l IH]; simpl; intros Hall.
  - apply preserves_ret.
  - apply andb_true_iff in Hall as [He Hl].
    apply preserves_bind.
    + apply status_entry_keeps_seg. apply negb_true_iff. exact He.
    + intros _. exact (IH Hl).
Qed.

Lemma seg_get_stat_fields (g : Segment) (v r p : Z) (o : Object) :
  seg_get g (set_pagefaults p (set_rss r (set_vsz v o))) = seg_get g o.
Proof. destruct g; reflexivity. Qed.

(** Each of [VmData], [VmExe], [VmLib], [VmStk] feeds its own attribute
    ([data_segment], [code_segment], [shared_segment], [stack_segment]).
    Both files being readable and the three stat fields numeric:
    - if no status line has the key of the attribute, [update] leaves the
      attribute as it was, whether it returns or raises;
    - if the status lines are well formed, and the last line with that
      key has a value starting with the integer [n], the attribute is
      [n * 1024] afterwards. *)
Theorem Proc_update_segments (g : Segment) (pagesize : Z) (os : OS)
        (self : Object) (stat : string) (status : list string)
        (t23 t24 t12 : string) (v r p : Z) :
  proc_self_stat os = Some stat ->
  proc_self_status os = Some status ->
  getitem (split isspace_str stat) 22 = Some t23 ->
  int isspace_str t23 = Some v ->
  getitem (split isspace_str stat) 23 = Some t24 ->
  int isspace_str t24 = Some r ->
  getitem (split isspace_str stat) 11 = Some t12 ->
  int isspace_str t12 = Some p ->
  (forallb (fun e => negb (has_key (seg_key g) e)) status = true ->
   seg_get g (fst (update_Proc pagesize os self)) = seg_get g self) /\
  (forall pre entry post value tok n,
      forallb entry_ok status = true ->
      status = (pre ++ entry :: post)%list ->
      split_on ":" entry = [seg_key g; value] ->
      getitem (split isspace_str value) 0 = Some tok ->
      int isspace_str tok = Some n ->
      forallb (fun e => negb (has_key (seg_key g) e)) post = true ->
      update_Proc pagesize os self
      = (fst (update_Proc pagesize os self), Ret true) /\
      seg_get g (fst (update_Proc pagesize os self)) = n * 1024).
Proof.
  intros Hstat Hstatus H23 Hv H24 Hr H12 Hp.
  rewrite (update_Proc_stat_ok pagesize os self stat status t23 t24 t12
             v r p Hstat Hstatus H23 Hv H24 Hr H12 Hp).
  set (s0 := set_pagefaults p (set_rss (r * pagesize) (set_vsz v self))).
  assert (Hfst : forall l,
             fst ((for_each l status_entry ;; ret true) s0)
             = fst (for_each l status_entry s0)).
  { intros l. unfold bind.
    destruct (for_each l status_entry s0) as [s1 [[] | e]]; reflexivity. }
  split.
  - intros Hno. rewrite Hfst.
    rewrite (for_each_keeps_seg g status Hno s0).
    apply seg_get_stat_fields.
  - intros pre entry post value tok n Hok Hsplit Hentry Htok Hn Hpost.
    destruct (for_each_status_ok status s0 Hok) as (s1 & Hrun & _).
    rewrite Hfst, Hrun. cbn [fst].
    split; [unfold bind; rewrite Hrun; reflexivity |].
    subst status.
    rewrite forallb_app in Hok. apply andb_true_iff in Hok as [Hpre _].
    rewrite for_each_app in Hrun.
    destruct (for_each_status_ok pre s0 Hpre) as (sa & Hsa & _).
    destruct (status_entry_seg g entry value tok n sa Hentry Htok Hn)
      as (sb & Hsb & Hseg).
    unfold bind in Hrun. rewrite Hsa in Hrun.
    cbn [for_each] in Hrun. unfold bind in Hrun. rewrite Hsb in Hrun.
    pose proof (for_each_keeps_seg g post Hpost sb) as Hkeep.
    rewrite Hrun in Hkeep. cbn [fst] in Hkeep. rewrite Hkeep. exact Hseg.
Qed.

(** The sample status has a [VmStk] line and no [VmExe] line. *)
Lemma Proc_update_segments_witness :
  seg_get Code (fst (update_Proc 4096 (os_proc sample_stat sample_status)
                                 (fresh host_posix)))
  = seg_get Code (fresh host_posix).
Proof.
  exact (proj1 (Proc_update_segments Code 4096
                  (os_proc sample_stat sample_status) (fresh host_posix)
                  sample_stat sample_status "12345678" "2000" "3"
                  12345678 2000 3
                  eq_refl eq_refl eq_refl eq_refl eq_refl eq_refl eq_refl eq_refl)
               eq_refl).
Defined.

Example Proc_update_stack_sample :
  stack_segment (fst (update_Proc 4096 (os_proc sample_stat sample_status)
                                  (fresh host_posix))) = 132 * 1024.
Proof. reflexivity. Qed.

(** *** Lines that [update] passes over *)

Lemma unknown_key_not_segment (key : string) :
  dict_get key_map key = None -> segment_key key = false.
Proof.
  intros Hnone. unfold segment_key.
  destruct (String.eqb_spec key "VmData") as [-> | _]; [discriminate Hnone |].
  destruct (String.eqb_spec key "VmExe") as [-> | _]; [discriminate Hnone |].
  destruct (String.eqb_spec key "VmLib") as [-> | _]; [discriminate Hnone |].
  destruct (String.eqb_spec key "VmStk") as [-> | _]; [discriminate Hnone |].
  reflexivity.
Qed.

Lemma status_entry_unknown (entry : string) (s : Object) :
  unknown_key entry = true -> status_entry entry s = (s, Ret tt).
Proof.
  unfold unknown_key.
  destruct (split_on ":" entry) as [| key [| value [| x rest]]] eqn:Hsplit;
    try discriminate.
  destruct (dict_get key_map key) as [label |] eqn:Hget; [discriminate |].
  intros _. rewrite (status_entry_eq entry key value s Hsplit).
  rewrite (unknown_key_not_segment key Hget).
  unfold entry_labels. rewrite Hget. reflexivity.
Qed.

Lemma for_each_unknown (l : list string) (s : Object) :
  forallb unknown_key l = true -> for_each l status_entry s = (s, Ret tt).
Proof.
  induction l as [| e l IH]; simpl; intros H.
  - reflexivity.
  - apply andb_true_iff in H as [He Hl].
    unfold bind. rewrite (status_entry_unknown e s He). exact (IH Hl).
Qed.

(** Status lines whose key is not one of the ten of [key_map] (and that
    have a single colon) are passed over, whatever their value: if all
    lines are such, among them the case of an empty status file,
    [update] returns [True] having assigned [vsz], [rss] and [pagefaults]
    and nothing else. *)
Theorem Proc_update_unknown_keys (pagesize : Z) (os : OS) (self : Object)
        (stat : string) (status : list string) (t23 t24 t12 : string)
        (v r p : Z) :
  proc_self_stat os = Some stat ->
  proc_self_status os = Some status ->
  getitem (split isspace_str stat) 22 = Some t23 ->
  int isspace_str t23 = Some v ->
  getitem (split isspace_str stat) 23 = Some t24 ->
  int isspace_str t24 = Some r ->
  getitem (split isspace_str stat) 11 = Some t12 ->
  int isspace_str t12 = Some p ->
  forallb unknown_key status = true ->
  update_Proc pagesize os self
  = (set_pagefaults p (set_rss (r * pagesize) (set_vsz v self)), Ret true).
Proof.
  intros Hstat Hstatus H23 Hv H24 Hr H12 Hp Hunk.
  rewrite (update_Proc_stat_ok pagesize os self stat status t23 t24 t12
             v r p Hstat Hstatus H23 Hv H24 Hr H12 Hp).
  unfold bind. rewrite (for_each_unknown status _ Hunk). reflexivity.
Qed.

Lemma Proc_update_unknown_keys_witness :
  update_Proc 4096
    (os_proc sample_stat [ "Name:" ++ TAB ++ "python" ++ LF;
                           "Threads:" ++ TAB ++ "not a number" ++ LF ])
    (fresh host_posix)
  = (set_pagefaults 3 (set_rss (2000 * 4096) (set_vsz 12345678 (fresh host_posix))),
     Ret true).
Proof.
  exact (Proc_update_unknown_keys 4096
           (os_proc sample_stat [ "Name:" ++ TAB ++ "python" ++ LF;
                                  "Threads:" ++ TAB ++ "not a number" ++ LF ])
           (fresh host_posix) sample_stat
           [ "Name:" ++ TAB ++ "python" ++ LF;
             "Threads:" ++ TAB ++ "not a number" ++ LF ]
           "12345678" "2000" "3" 12345678 2000 3
           eq_refl eq_refl eq_refl eq_refl eq_refl eq_refl eq_refl eq_refl
           eq_refl).
Defined.

(* ------------------------------------------------------------------ *)
(** ** Calling [update] again                                          *)
(* ------------------------------------------------------------------ *)

(** A line on which [status_entry] returns is well formed. *)
Lemma status_entry_ret_inv (entry : string) (s s' : Object) :
  status_entry entry s = (s', Ret tt) -> entry_ok entry = true.
Proof.
  unfold entry_ok.
  destruct (split_on ":" entry) as [| key [| value [| x rest]]] eqn:Hsplit;
    try (rewrite status_entry_bad_unpack by (rewrite Hsplit; simpl; lia);
         discriminate).
  rewrite (status_entry_eq entry key value s Hsplit).
  destruct (segment_key key); [| reflexivity].
  unfold value_ok.
  destruct (getitem (split isspace_str value) 0) as [t |]; [| discriminate].
  destruct (int isspace_str t); [reflexivity | discriminate].
Qed.

Lemma for_each_ret_inv (l : list string) (s s' : Object) :
  for_each l status_entry s = (s', Ret tt) -> forallb entry_ok l = true.
Proof.
  revert s. induction l as [| e l IH]; simpl; intros s H.
  - reflexivity.
  - unfold bind in H.
    destruct (status_entry e s) as [s1 [[] | x]] eqn:He; [| discriminate].
    rewrite (status_entry_ret_inv e s s1 He). exact (IH s1 H).
Qed.

(** Over well-formed lines the loop either leaves a segment attribute as
    it found it, or sets it to a value that depends on the lines only. *)
Lemma for_each_seg_dichotomy (g : Segment) (l : list string) :
  forallb entry_ok l = true ->
  (forall s, seg_get g (fst (for_each l status_entry s)) = seg_get g s) \/
  (exists c, forall s, seg_get g (fst (for_each l status_entry s)) = c).
Proof.
  induction l as [| e l IH]; simpl; intros Hok.
  - left. reflexivity.
  - apply andb_true_iff in Hok as [He Hl].
    assert (Hstep : forall s, exists s1,
               status_entry e s = (s1, Ret tt) /\
               fst ((status_entry e ;; for_each l status_entry) s)
               = fst (for_each l status_entry s1)).
    { intros s. destruct (status_entry_ok e s He) as (s1 & Hs1 & _).
      exists s1. split; [exact Hs1 |]. unfold bind. rewrite Hs1. reflexivity. }
    destruct (IH Hl) as [Hkeep | [c Hc]].
    + destruct (has_key (seg_key g) e) eqn:Hk.
      * right. unfold has_key in Hk. unfold entry_ok in He.
        destruct (split_on ":" e) as [| key [| value [| x rest]]] eqn:Hsplit;
          try discriminate.
        apply String.eqb_eq in Hk. subst key.
        rewrite segment_key_seg_key in He. unfold value_ok in He.
        destruct (getitem (split isspace_str value) 0) as [tok |] eqn:Htok;
          [| discriminate].
        destruct (int isspace_str tok) as [n |] eqn:Hn; [| discriminate].
        exists (n * 1024). intros s.
        destruct (Hstep s) as (s1 & Hs1 & ->). rewrite Hkeep.
        destruct (status_entry_seg g e value tok n s Hsplit Htok Hn)
          as (s1' & Hs1' & Hseg).
        rewrite Hs1 in Hs1'. injection Hs1' as <-. exact Hseg.
      * left. intros s.
        destruct (Hstep s) as (s1 & Hs1 & ->). rewrite Hkeep.
        pose proof (status_entry_keeps_seg g e Hk s) as Hp.
        rewrite Hs1 in Hp. exact Hp.
    + right. exists c. intros s.
      destruct (Hstep s) as (s1 & _ & ->). apply Hc.
Qed.

(** What it takes for the filesystem [update] to return [True]. *)
Lemma update_Proc_true_inv (pagesize : Z) (os : OS) (s s1 : Object) :
  update_Proc pagesize os s = (s1, Ret true) ->
  exists stat status t23 t24 t12 v r p,
    proc_self_stat os = Some stat /\
    proc_self_status os = Some status /\
    getitem (split isspace_str stat) 22 = Some t23 /\
    int isspace_str t23 = Some v /\
    getitem (split isspace_str stat) 23 = Some t24 /\
    int isspace_str t24 = Some r /\
    getitem (split isspace_str stat) 11 = Some t12 /\
    int isspace_str t12 = Some p /\
    for_each status status_entry
             (set_pagefaults p (set_rss (r * pagesize) (set_vsz v s)))
    = (s1, Ret tt).
Proof.
  unfold update_Proc.
  destruct (proc_self_stat os) as [stat |]; [| discriminate].
  destruct (proc_self_status os) as [status |]; [| discriminate].
  cbv zeta.
  destruct (getitem (split isspace_str stat) 22) as [t23 |] eqn:H23;
    [| discriminate].
  unfold bind at 1. cbn [orraise ret]. unfold bind at 1.
  destruct (int isspace_str t23) as [v |] eqn:Hv; [| discriminate].
  cbn [orraise ret]. unfold bind at 1. cbn [assign].
  destruct (getitem (split isspace_str stat) 23) as [t24 |] eqn:H24;
    [| discriminate].
  unfold bind at 1. cbn [orraise ret]. unfold bind at 1.
  destruct (int isspace_str t24) as [r |] eqn:Hr; [| discriminate].
  cbn [orraise ret]. unfold bind at 1. cbn [assign].
  destruct (getitem (split isspace_str stat) 11) as [t12 |] eqn:H12;
    [| discriminate].
  unfold bind at 1. cbn [orraise ret]. unfold bind at 1.
  destruct (int isspace_str t12) as [p |] eqn:Hp; [| discriminate].
  cbn [orraise ret]. unfold bind at 1. cbn [assign]. unfold bind at 1.
  destruct (for_each status status_entry _) as [s' [[] | e]] eqn:Hrun;
    [| discriminate].
  intros H. injection H as <-.
  exists stat, status, t23, t24, t12, v, r, p.
  repeat split; assumption.
Qed.

Lemma numeric_eq (a b : Object) :
  (vsz a, rss a, pagefaults a) = (vsz b, rss b, pagefaults b) ->
  (forall g, seg_get g a = seg_get g b) ->
  numeric a = numeric b.
Proof.
  intros H Hseg. injection H as Hv Hr Hp.
  pose proof (Hseg Data) as Hd. pose proof (Hseg Code) as Hc.
  pose proof (Hseg Shared) as Hsh. pose proof (Hseg Stack) as Hst.
  simpl in *. unfold numeric. congruence.
Qed.

Lemma update_Proc_again (pagesize : Z) (os : OS) (s s1 : Object) (b : bool) :
  update_Proc pagesize os s = (s1, Ret b) ->
  exists s2, update_Proc pagesize os s1 = (s2, Ret b) /\
             numeric s2 = numeric s1.
Proof.
  destruct b.
  - intros H.
    destruct (update_Proc_true_inv pagesize os s s1 H)
      as (stat & status & t23 & t24 & t12 & v & r & p &
          Hstat & Hstatus & H23 & Hv & H24 & Hr & H12 & Hp & Hrun).
    pose proof (for_each_ret_inv status _ _ Hrun) as Hok.
    rewrite (update_Proc_stat_ok pagesize os s1 stat status t23 t24 t12
               v r p Hstat Hstatus H23 Hv H24 Hr H12 Hp).
    set (s0 := set_pagefaults p (set_rss (r * pagesize) (set_vsz v s))) in Hrun.
    set (s0' := set_pagefaults p (set_rss (r * pagesize) (set_vsz v s1))).
    destruct (for_each_status_ok status s0' Hok) as (s2 & Hrun2 & _).
    exists s2. unfold bind. rewrite Hrun2. split; [reflexivity |].
    apply numeric_eq.
    + pose proof (status_loop_preserves_stat_fields status s0) as F1.
      pose proof (status_loop_preserves_stat_fields status s0') as F2.
      rewrite Hrun in F1. rewrite Hrun2 in F2. cbn [fst] in F1, F2.
      rewrite F1, F2. reflexivity.
    + intros g.
      destruct (for_each_seg_dichotomy g status Hok) as [Hkeep | [c Hc]].
      * pose proof (Hkeep s0') as K. rewrite Hrun2 in K. cbn [fst] in K.
        rewrite K. unfold s0'. apply seg_get_stat_fields.
      * pose proof (Hc s0) as C1. pose proof (Hc s0') as C2.
        rewrite Hrun in C1. rewrite Hrun2 in C2. cbn [fst] in C1, C2.
        congruence.
  - intros H. pose proof H as H'.
    apply update_Proc_false in H' as [-> _].
    exists s. split; [exact H | reflexivity].
Qed.

Lemma update_PS_again (os : OS) (s s1 : Object) (b : bool) :
  update_PS os s = (s1, Ret b) -> update_PS os s1 = (s1, Ret b).
Proof.
  intros H.
  assert (Hpid : pid s1 = pid s).
  { pose proof (update_PS_preserves_pid os s) as Hp. rewrite H in Hp. exact Hp. }
  rewrite update_PS_unfold in H. rewrite update_PS_unfold, Hpid.
  destruct (Popen os _) as [[out returncode] |];
    [| injection H as <- <-; reflexivity].
  cbv zeta in *.
  destruct ((returncode =? 0) && _); [| injection H as <- <-; reflexivity].
  destruct (getitem _ (-1)) as [tv |]; [| discriminate].
  destruct (int isspace_bytes tv) as [v |]; [| discriminate].
  destruct (getitem _ (-2)) as [tr |]; [| discriminate].
  destruct (int isspace_bytes tr) as [r |]; [| discriminate].
  injection H as <- <-. reflexivity.
Qed.

(** [update] can be called again.  If a call of [update] has returned
    and the operating system answers the same, a second call on the same
    instance returns the same boolean and leaves the seven numeric
    attributes as the first call left them; for every class but the
    filesystem class the whole instance is as the first call left it. *)
Theorem update_again (c : Class) (h : Host) (os : OS) (s s1 : Object) (b : bool) :
  update c h os s = (s1, Ret b) ->
  exists s2,
    update c h os s1 = (s2, Ret b) /\
    numeric s2 = numeric s1 /\
    pid s2 = pid s1 /\
    (c <> _ProcessMemoryInfoProc -> s2 = s1).
Proof.
  destruct c; simpl.
  - intros H. injection H as <- <-. exists s. repeat split.
  - intros H. exists s1. rewrite (update_PS_again os s s1 b H). repeat split.
  - intros H. destruct (update_Proc_again _ os s s1 b H) as (s2 & H2 & Hnum).
    exists s2. split; [exact H2 |]. split; [exact Hnum |].
    split; [| intros Hc; contradiction].
    pose proof (update_Proc_preserves_pid (_getpagesize h) os s1) as Hp.
    rewrite H2 in Hp. exact Hp.
  - destruct (resource h); [| discriminate].
    rewrite update_Resource_eq. intros H. injection H as <- <-.
    eexists. rewrite update_Resource_eq. repeat split.
  - destruct (win32 h); [| discriminate].
    rewrite update_Win32_eq. intros H. injection H as <- <-.
    eexists. rewrite update_Win32_eq. repeat split.
Qed.

Lemma update_again_witness :
  exists s2,
    update _ProcessMemoryInfoProc host_posix (os_proc sample_stat sample_status)
           (fst (update_Proc 4096 (os_proc sample_stat sample_status)
                             (fresh host_posix)))
    = (s2, Ret true) /\
    numeric s2 = numeric (fst (update_Proc 4096 (os_proc sample_stat sample_status)
                                           (fresh host_posix))) /\
    pid s2 = pid (fst (update_Proc 4096 (os_proc sample_stat sample_status)
                                   (fresh host_posix))) /\
    (_ProcessMemoryInfoProc <> _ProcessMemoryInfoProc ->
     s2 = fst (update_Proc 4096 (os_proc sample_stat sample_status)
                           (fresh host_posix))).
Proof.
  exact (update_again _ProcessMemoryInfoProc host_posix
           (os_proc sample_stat sample_status) (fresh host_posix)
           (fst (update_Proc 4096 (os_proc sample_stat sample_status)
                             (fresh host_posix)))
           true eq_refl).
Defined.

(** The filesystem [update] never clears [os_specific]: each call that
    completes appends the (label, value) pairs of the status lines once
    more.  After two calls under the same answers the list holds them
    twice. *)
Theorem Proc_update_twice_os_specific (pagesize : Z) (os : OS) (self : Object)
        (stat : string) (status : list string) (t23 t24 t12 : string)
        (v r p : Z) :
  proc_self_stat os = Some stat ->
  proc_self_status os = Some status ->
  getitem (split isspace_str stat) 22 = Some t23 ->
  int isspace_str t23 = Some v ->
  getitem (split isspace_str stat) 23 = Some t24 ->
  int isspace_str t24 = Some r ->
  getitem (split isspace_str stat) 11 = Some t12 ->
  int isspace_str t12 = Some p ->
  forallb entry_ok status = true ->
  exists s1 s2,
    update_Proc pagesize os self = (s1, Ret true) /\
    update_Proc pagesize os s1 = (s2, Ret true) /\
    os_specific s1 = (os_specific self ++ flat_map line_labels status)%list /\
    os_specific s2 = (os_specific self ++ flat_map line_labels status
                                  ++ flat_map line_labels status)%list.
Proof.
  intros Hstat Hstatus H23 Hv H24 Hr H12 Hp Hok.
  assert (Hone : forall s, exists s',
             update_Proc pagesize os s = (s', Ret true) /\
             os_specific s' = (os_specific s ++ flat_map line_labels status)%list).
  { intros s.
    rewrite (update_Proc_stat_ok pagesize os s stat status t23 t24 t12
               v r p Hstat Hstatus H23 Hv H24 Hr H12 Hp).
    destruct (for_each_status_ok status
                (set_pagefaults p (set_rss (r * pagesize) (set_vsz v s))) Hok)
      as (s' & Hrun & Hos).
    exists s'. unfold bind. rewrite Hrun. split; [reflexivity | exact Hos]. }
  destruct (Hone self) as (s1 & H1 & Hos1).
  destruct (Hone s1) as (s2 & H2 & Hos2).
  exists s1, s2. repeat split; try assumption.
  rewrite Hos2, Hos1, <- app_assoc. reflexivity.
Qed.

Lemma Proc_update_twice_os_specific_witness :
  exists s1 s2,
    update_Proc 4096 (os_proc sample_stat sample_status) (fresh host_posix)
    = (s1, Ret true) /\
    update_Proc 4096 (os_proc sample_stat sample_status) s1 = (s2, Ret true) /\
    os_specific s1
    = (os_specific (fresh host_posix) ++ flat_map line_labels sample_status)%list /\
    os_specific s2
    = (os_specific (fresh host_posix) ++ flat_map line_labels sample_status
                   ++ flat_map line_labels sample_status)%list.
Proof.
  exact (Proc_update_twice_os_specific 4096 (os_proc sample_stat sample_status)
           (fresh host_posix) sample_stat sample_status
           "12345678" "2000" "3" 12345678 2000 3
           eq_refl eq_refl eq_refl eq_refl eq_refl eq_refl eq_refl eq_refl
           eq_refl).
Defined.

Example is_available_duplicates_labels :
  os_specific (fst (update _ProcessMemoryInfoProc host_posix
                      (os_proc sample_stat sample_status)
                      (fst (update _ProcessMemoryInfoProc host_posix
                              (os_proc sample_stat sample_status)
                              (fresh host_posix)))))
  = [ ("Resident set size", "8000 kB");
      ("Size of data segment", "1234 kB");
      ("Size of stack segment", "132 kB");
      ("Resident set size", "8000 kB");
      ("Size of data segment", "1234 kB");
      ("Size of stack segment", "132 kB") ].
Proof. reflexivity. Qed.

(* ------------------------------------------------------------------ *)
(** ** Snapshots on a Windows host                                     *)
(* ------------------------------------------------------------------ *)

(** Where the import has bound the Win32 class, every snapshot succeeds:
    the constructor returns, whatever the process-information call
    answers, an instance with [available == True], [vsz] the page-file
    usage, [rss] the working-set size and [pagefaults] the page-fault
    count of that answer, the pid of the process, and everything else at
    its default. *)
Theorem Win32_snapshot (h : Host) (os0 : nat -> OS) (g : Globals) (os : OS) :
  import_module h os0 = Ret g ->
  ProcessMemoryInfo g = _ProcessMemoryInfoWin32 ->
  __init__ (ProcessMemoryInfo g) h os
  = Ret {| pid := getpid h;
           rss := WorkingSetSize (GetProcessMemoryInfo os);
           vsz := PagefileUsage (GetProcessMemoryInfo os);
           pagefaults := PageFaultCount (GetProcessMemoryInfo os);
           os_specific := [];
           data_segment := 0; code_segment := 0; shared_segment := 0;
           stack_segment := 0; available := Some true |}.
Proof.
  intros Himp Hc. apply import_bound_inv in Himp. rewrite Hc in *.
  destruct Himp as [_ Hw].
  unfold __init__. cbn [update]. rewrite Hw, update_Win32_eq. reflexivity.
Qed.

Lemma Win32_snapshot_witness :
  __init__ _ProcessMemoryInfoWin32 host_windows os_win32
  = Ret {| pid := 4711; rss := 2000; vsz := 3000; pagefaults := 7;
           os_specific := []; data_segment := 0; code_segment := 0;
           shared_segment := 0; stack_segment := 0; available := Some true |}.
Proof.
  exact (Win32_snapshot host_windows (fun _ => os_nothing)
           (mk_Globals _ProcessMemoryInfoWin32) os_win32 eq_refl eq_refl).
Defined.
